(* ============================================================================
   Cart service (Nodejs_Microservices_TDD_Cart): the offer-tier resolver
   [calculatePaidAndFree], the cart totals [calculateCartTotals], the cart
   operations [getCart], [addToCart], [updateCartItem], [removeFromCart],
   [clearCart], [checkout] and [getTransactionHistory] of the cart service
   (MongoDB path), and the cart controllers, as a shallow embedding.

   Numbers.  JavaScript numbers are IEEE binary64 doubles.  Prices and the
   money amounts derived from them are modelled with Rocq's primitive
   binary64 floats ([PrimFloat.float]), so that the cart totals and their
   [Math.round(x * 100) / 100] rounding compute exactly as in JavaScript.
   Quantities are integral JS numbers far below 2^53, where double arithmetic
   is exact; they are modelled as [Z].

   Ids.  A fruit id is cast to a MongoDB ObjectId by [Fruit.findById] and
   [new Types.ObjectId]; ObjectIds are modelled by their [toString()], the
   lower-case hex string, and a failed cast by Mongoose's CastError.
   ============================================================================ *)

From Stdlib Require Import ZArith Lia List String Ascii Bool.
From Stdlib Require Import PrimFloat FloatOps SpecFloat.
Import ListNotations.

Open Scope Z_scope.

(* ---------------------------------------------------------------------------
   models/fruit.ts : OfferType
   --------------------------------------------------------------------------- *)

Inductive OfferType :=
| NONE
| BUY_1_GET_1_FREE
| BUY_2_GET_3_FREE
| BUY_3_GET_5_FREE.

(* ---------------------------------------------------------------------------
   JavaScript integer helpers on integral numbers
   --------------------------------------------------------------------------- *)

(** [Math.floor(a / b)] for integers, [b > 0]. *)
Definition js_floor_div (a b : Z) : Z := Z.div a b.

(** [a % b]: JavaScript's remainder takes the sign of the dividend. *)
Definition js_rem (a b : Z) : Z := Z.rem a b.

(** [Math.ceil(a / b)] for integers, [b > 0]. *)
Definition js_ceil_div (a b : Z) : Z := - (Z.div (- a) b).

(* ---------------------------------------------------------------------------
   cartService.ts, lines 21-98 : calculatePaidAndFree
   --------------------------------------------------------------------------- *)

Record PaidFree := mkPaidFree { paid : Z; free : Z }.

Definition calculatePaidAndFree (totalQuantity : Z) (offerType : OfferType) : PaidFree :=
  if totalQuantity <=? 0 then mkPaidFree 0 0 else
  match offerType with
  | BUY_1_GET_1_FREE =>
      let cycleSize := 2 in
      let paidPerCycle := 1 in
      let completeCycles := js_floor_div totalQuantity cycleSize in
      let remainder := js_rem totalQuantity cycleSize in
      let paid := completeCycles * paidPerCycle + remainder in
      let free := totalQuantity - paid in
      mkPaidFree paid free
  | BUY_2_GET_3_FREE =>
      let cycleSize := 5 in
      let firstCyclePaid := 2 in
      if totalQuantity <=? cycleSize then
        let paid := Z.min totalQuantity firstCyclePaid in
        let free := totalQuantity - paid in
        mkPaidFree paid free
      else
        let afterFirstCycle := totalQuantity - cycleSize in
        let additionalPaid := js_ceil_div afterFirstCycle cycleSize in
        let paid := firstCyclePaid + additionalPaid in
        let free := totalQuantity - paid in
        mkPaidFree paid free
  | BUY_3_GET_5_FREE =>
      let cycleSize := 8 in
      let firstCyclePaid := 3 in
      if totalQuantity <=? cycleSize then
        let paid := Z.min totalQuantity firstCyclePaid in
        let free := totalQuantity - paid in
        mkPaidFree paid free
      else
        let afterFirstCycle := totalQuantity - cycleSize in
        let additionalPaid := js_ceil_div afterFirstCycle cycleSize in
        let paid := firstCyclePaid + additionalPaid in
        let free := totalQuantity - paid in
        mkPaidFree paid free
  | NONE => mkPaidFree totalQuantity 0
  end.

(* ---------------------------------------------------------------------------
   The specification's general first-cycle / steady-state policy (spec 4.1),
   written from the spec's words, to be compared with the code above.
   --------------------------------------------------------------------------- *)

(** Spec policy for a tier with first-cycle total [C] and [firstPaid = F]:
    [paid = min(q, F)] when [q <= C], else [F + ceil((q - C) / C)];
    [free = q - paid]. *)
Definition spec_policy (C F totalQuantity : Z) : PaidFree :=
  let paid :=
    if totalQuantity <=? C then Z.min totalQuantity F
    else F + js_ceil_div (totalQuantity - C) C in
  mkPaidFree paid (totalQuantity - paid).

(** The spec's worked values (spec 4.1), one row per quantity:
    (tier, quantity, paid, free). *)
Definition worked_table : list (OfferType * Z * Z * Z) :=
  [ (BUY_1_GET_1_FREE, 1, 1, 0); (BUY_1_GET_1_FREE, 2, 1, 1);
    (BUY_1_GET_1_FREE, 3, 2, 1); (BUY_1_GET_1_FREE, 4, 2, 2);
    (BUY_1_GET_1_FREE, 5, 3, 2);
    (BUY_2_GET_3_FREE, 1, 1, 0); (BUY_2_GET_3_FREE, 2, 2, 0) ]
  ++ map (fun q => (BUY_2_GET_3_FREE, q, 2, q - 2)) [3; 4; 5]
  ++ [ (BUY_2_GET_3_FREE, 6, 3, 3) ]
  ++ map (fun q => (BUY_2_GET_3_FREE, q, 3, q - 3)) [7; 8; 9; 10]
  ++ [ (BUY_2_GET_3_FREE, 11, 4, 7) ]
  ++ map (fun q => (BUY_3_GET_5_FREE, q, q, 0)) [1; 2; 3]
  ++ map (fun q => (BUY_3_GET_5_FREE, q, 3, q - 3)) [4; 5; 6; 7; 8]
  ++ map (fun q => (BUY_3_GET_5_FREE, q, 4, q - 4)) [9; 10; 11; 12; 13; 14; 15; 16]
  ++ map (fun q => (BUY_3_GET_5_FREE, q, 5, q - 5)) [17; 18; 19; 20; 21; 22; 23; 24].

Definition row_matches (row : OfferType * Z * Z * Z) : bool :=
  let '(tier, q, p, f) := row in
  let r := calculatePaidAndFree q tier in
  (paid r =? p) && (free r =? f).

Definition worked_table_matches : bool := forallb row_matches worked_table.

(* ---------------------------------------------------------------------------
   JavaScript numbers used as money: binary64 floats
   --------------------------------------------------------------------------- *)

(** The double nearest to the integer [z] (exact for |z| <= 2^53). *)
Definition Z_to_float (z : Z) : float :=
  SF2Prim (binary_normalize prec emax z 0 false).

(** [Math.round(x)]: floor(x + 1/2), i.e. nearest integer with ties towards
    +infinity; NaN, infinities, zeros and integral values are returned as
    they are, and a negative argument that rounds to 0 gives -0. *)
Definition Math_round (x : float) : float :=
  match Prim2SF x with
  | S754_finite s m e =>
      if 0 <=? e then x
      else
        let sm := if s then Z.neg m else Z.pos m in
        let k := (2 * sm + 2 ^ (- e)) / 2 ^ (1 - e) in
        if (k =? 0) && s then (-0)%float else Z_to_float k
  | _ => x
  end.

(** [Math.round(x * 100) / 100]. *)
Definition round2 (x : float) : float := (Math_round (x * 100) / 100)%float.

(* ---------------------------------------------------------------------------
   types/index.ts : CartItem, Cart   (the [addedAt] / [updatedAt] dates are
   not modelled: nothing below reads them)
   --------------------------------------------------------------------------- *)

Record CartItem := mkCartItem {
  fruitId : string;
  name : string;
  price : float;
  quantity : Z;          (* paid units *)
  offerType : OfferType;
  freeItems : Z          (* free units *)
}.

Record Cart := mkCart {
  items : list CartItem;
  totalItems : Z;
  totalPrice : float;
  discountAmount : float;
  finalPrice : float
}.

(* ---------------------------------------------------------------------------
   cartService.ts, lines 100-125 : calculateDiscount, calculateCartTotals
   --------------------------------------------------------------------------- *)

Definition calculateDiscount (items : list CartItem) : float :=
  fold_left (fun discount item =>
    let freeItemValue := (Z_to_float (freeItems item) * price item)%float in
    (discount + freeItemValue)%float) items 0%float.

Record CartTotals := mkCartTotals {
  ct_totalItems : Z;
  ct_totalPrice : float;
  ct_discountAmount : float;
  ct_finalPrice : float
}.

Definition calculateCartTotals (items : list CartItem) : CartTotals :=
  let totalItems := fold_left (fun sum item => sum + quantity item + freeItems item) items 0 in
  let totalPrice := fold_left (fun sum item =>
        (sum + price item * Z_to_float (quantity item + freeItems item))%float) items 0%float in
  let discountAmount := calculateDiscount items in
  let finalPrice := (totalPrice - discountAmount)%float in
  mkCartTotals totalItems (round2 totalPrice) (round2 discountAmount) (round2 finalPrice).

(** The statement [cart.totalItems = totals.totalItems; ...] that every
    mutation ends with: the cart rebuilt from its items and their totals. *)
Definition with_totals (items : list CartItem) : Cart :=
  let totals := calculateCartTotals items in
  mkCart items (ct_totalItems totals) (ct_totalPrice totals)
    (ct_discountAmount totals) (ct_finalPrice totals).

Definition empty_cart : Cart := mkCart [] 0 0%float 0%float 0%float.

(* ---------------------------------------------------------------------------
   models/fruit.ts : the fields of a Fruit document the cart service reads
   --------------------------------------------------------------------------- *)

Module Fruit.
Record t := mk {
  name : string;
  price : float;
  offerType : OfferType;
  inStock : bool;
  stockQuantity : Z
}.
End Fruit.

(* ---------------------------------------------------------------------------
   models/transactionHistory.ts
   --------------------------------------------------------------------------- *)

Inductive TransactionStatus := PENDING | COMPLETED | CANCELLED | REFUNDED | FAILED.

(** [Object.values(PaymentMethod)]. *)
Definition PaymentMethod_values : list string :=
  ["CASH"; "CREDIT_CARD"; "DEBIT_CARD"; "UPI"; "NET_BANKING"; "WALLET"]%string.

Module TransactionItem.
Record t := mk {
  fruitId : string;
  fruitName : string;
  quantity : Z;
  pricePerUnit : float;
  offerApplied : OfferType;
  freeItemsReceived : Z;
  subtotal : float
}.
End TransactionItem.

Module Transaction.
Record t := mk {
  userId : string;
  items : list TransactionItem.t;
  totalAmount : float;
  discountAmount : float;
  finalAmount : float;
  currency : string;
  paymentMethod : string;
  status : TransactionStatus;
  notes : option string
}.
End Transaction.

(* ---------------------------------------------------------------------------
   The service's state: the MongoDB collections it reads and writes, and the
   requests it sends to the auth service.
   --------------------------------------------------------------------------- *)

(** Requests sent to the auth service during checkout. *)
Inductive AuthCall :=
| GetProfile                      (* GET  /profile *)
| DeductBalance (amount : float)  (* POST /deduct-balance *)
| NotifyOrder (amount : float).   (* POST /notify-order *)

Record World := mkWorld {
  fruits : string -> option Fruit.t;        (* Fruit collection, by _id (hex) *)
  carts : string -> option Cart;            (* Cart collection, by userId *)
  transactions : list Transaction.t;        (* TransactionHistory, in insertion order *)
  auth_calls : list AuthCall                (* requests to the auth service, in order *)
}.

Definition upd {A} (f : string -> option A) (k : string) (v : option A) : string -> option A :=
  fun k' => if String.eqb k k' then v else f k'.

Definition set_carts (w : World) (c : string -> option Cart) : World :=
  mkWorld (fruits w) c (transactions w) (auth_calls w).
Definition set_fruits (w : World) (f : string -> option Fruit.t) : World :=
  mkWorld f (carts w) (transactions w) (auth_calls w).
Definition set_transactions (w : World) (ts : list Transaction.t) : World :=
  mkWorld (fruits w) (carts w) ts (auth_calls w).
Definition set_auth_calls (w : World) (cs : list AuthCall) : World :=
  mkWorld (fruits w) (carts w) (transactions w) cs.

(* ---------------------------------------------------------------------------
   async functions that may throw: a state and error monad over [World].
   [Throw msg] is a rejected promise with [new Error(msg)].
   --------------------------------------------------------------------------- *)

Inductive Result (A : Type) := Ok (a : A) | Throw (msg : string).
Arguments Ok {A} a.
Arguments Throw {A} msg.

Definition M (A : Type) : Type := World -> World * Result A.

Definition ret {A} (a : A) : M A := fun w => (w, Ok a).
Definition throw {A} (msg : string) : M A := fun w => (w, Throw msg).
Definition bind {A B} (m : M A) (k : A -> M B) : M B :=
  fun w => match m w with
           | (w', Ok a) => k a w'
           | (w', Throw msg) => (w', Throw msg)
           end.
(** [try { m } catch (error) { h(error.message) }]. *)
Definition catch {A} (m : M A) (h : string -> M A) : M A :=
  fun w => match m w with
           | (w', Ok a) => (w', Ok a)
           | (w', Throw msg) => h msg w'
           end.
Definition get : M World := fun w => (w, Ok w).
Definition put (w : World) : M unit := fun _ => (w, Ok tt).

Notation "x <- m ;; k" := (bind m (fun x => k))
  (at level 61, m at next level, right associativity).
Notation "m ;;; k" := (bind m (fun _ => k))
  (at level 61, right associativity).

(* ---------------------------------------------------------------------------
   Array helpers: [findIndex], [arr[i] = ...], [splice(i, 1)]
   --------------------------------------------------------------------------- *)

(** [Array.prototype.findIndex]; [None] stands for [-1]. *)
Fixpoint findIndex {A} (p : A -> bool) (l : list A) : option nat :=
  match l with
  | [] => None
  | x :: l' => if p x then Some 0%nat
               else match findIndex p l' with Some i => Some (S i) | None => None end
  end.

(** Replace the element at index [i] by [f] of it. *)
Fixpoint update_at {A} (i : nat) (f : A -> A) (l : list A) : list A :=
  match l, i with
  | [], _ => []
  | x :: l', O => f x :: l'
  | x :: l', S i' => x :: update_at i' f l'
  end.

(** [splice(i, 1)]. *)
Fixpoint remove_at {A} (i : nat) (l : list A) : list A :=
  match l, i with
  | [], _ => []
  | _ :: l', O => l'
  | x :: l', S i' => x :: remove_at i' l'
  end.

(** [item.quantity = paid; item.freeItems = free]. *)
Definition set_paid_free (item : CartItem) (pf : PaidFree) : CartItem :=
  mkCartItem (fruitId item) (name item) (price item) (paid pf) (offerType item) (free pf).

(** [message.includes(pat)]. *)
Definition includes (message pat : string) : bool :=
  match String.index 0 pat message with Some _ => true | None => false end.

(* ---------------------------------------------------------------------------
   Mongoose ObjectIds (Mongoose 8 over bson 6).  [Fruit.findById(id)] and
   [new Types.ObjectId(id)] cast the string [id] to an ObjectId: bson
   accepts exactly the strings of 24 hexadecimal digits, in either case;
   any other string makes the query reject with a CastError.  An ObjectId
   is modelled by its [toString()], its lower-case hex form; so are the
   [_id] of the Fruit collection and the [fruitId] of a stored cart line.
   --------------------------------------------------------------------------- *)

Definition is_hex_digit (c : ascii) : bool :=
  let n := nat_of_ascii c in
  ((48 <=? n) && (n <=? 57) || (65 <=? n) && (n <=? 70) || (97 <=? n) && (n <=? 102))%nat.

Definition ascii_lower (c : ascii) : ascii :=
  let n := nat_of_ascii c in
  if (65 <=? n)%nat && (n <=? 90)%nat then ascii_of_nat (n + 32) else c.

Fixpoint toLowerCase (s : string) : string :=
  match s with
  | EmptyString => EmptyString
  | String c s' => String (ascii_lower c) (toLowerCase s')
  end.

Fixpoint string_forallb (p : ascii -> bool) (s : string) : bool :=
  match s with
  | EmptyString => true
  | String c s' => p c && string_forallb p s'
  end.

(** The ObjectId [id] casts to, as its [toString()]; [None] when the cast
    fails. *)
Definition castObjectId (id : string) : option string :=
  if (String.length id =? 24)%nat && string_forallb is_hex_digit id
  then Some (toLowerCase id) else None.

(* ---------------------------------------------------------------------------
   The message of that CastError: mongoose/lib/error/cast.js (formatMessage,
   getStringValue, once the query has set its model) over Node's
   [util.inspect] of a string (lib/internal/util/inspect.js, strEscape).
   Strings are byte strings here.  [util.inspect]'s splitting of a string
   longer than its line width at newlines, and its cut after 10000
   characters, are not modelled.
   --------------------------------------------------------------------------- *)

Definition dq_char : ascii := "034"%char.
Definition dq : string := String dq_char EmptyString.

Inductive QuoteStyle := SingleQuote | DoubleQuote | BackQuote.

Definition hex_digit_upper (n : nat) : ascii :=
  ascii_of_nat (if (n <? 10)%nat then 48 + n else 55 + n)%nat.

(** The [meta] table of [strEscape]. *)
Definition meta (n : nat) : string :=
  match n with
  | 8 => "\b" | 9 => "\t" | 10 => "\n" | 12 => "\f" | 13 => "\r"
  | 39 => "\'" | 92 => "\\"
  | _ => String "\" (String "x" (String (hex_digit_upper (n / 16))
           (String (hex_digit_upper (n mod 16)) EmptyString)))
  end%nat%string%char.

(** The characters [strEscape] replaces by their [meta] entry: the single
    quote when it quotes with single quotes, the backslash, and the codes
    below 32 and from 127 to 159. *)
Definition needs_escape (q : QuoteStyle) (c : ascii) : bool :=
  let n := nat_of_ascii c in
  (match q with SingleQuote => n =? 39 | _ => false end
   || (n =? 92) || (n <? 32) || (126 <? n) && (n <? 160))%nat.

Fixpoint escape_chars (q : QuoteStyle) (s : string) : string :=
  match s with
  | EmptyString => EmptyString
  | String c s' =>
      ((if needs_escape q c then meta (nat_of_ascii c) else String c EmptyString)
       ++ escape_chars q s')%string
  end.

Definition addQuotes (s : string) (q : QuoteStyle) : string :=
  match q with
  | DoubleQuote => (dq ++ s ++ dq)%string
  | BackQuote => ("`" ++ s ++ "`")%string
  | SingleQuote => ("'" ++ s ++ "'")%string
  end.

Definition strEscape (str : string) : string :=
  let q :=
    if includes str "'" then
      if negb (includes str dq) then DoubleQuote
      else if negb (includes str "`") && negb (includes str "${") then BackQuote
      else SingleQuote
    else SingleQuote in
  addQuotes (escape_chars q str) q.

(** [s.replace(/^'|'$/g, ...)]: a single quote opening or closing the
    string becomes a double quote. *)
Definition replace_first_single_quote (s : string) : string :=
  match s with
  | String c s' => if Ascii.eqb c "'"%char then String dq_char s' else s
  | EmptyString => EmptyString
  end.

Fixpoint replace_last_single_quote (s : string) : string :=
  match s with
  | EmptyString => EmptyString
  | String c EmptyString => if Ascii.eqb c "'"%char then dq else s
  | String c s' => String c (replace_last_single_quote s')
  end.

Definition getStringValue (value : string) : string :=
  let stringValue :=
    replace_last_single_quote (replace_first_single_quote (strEscape value)) in
  if String.prefix dq stringValue then stringValue
  else (dq ++ stringValue ++ dq)%string.

(** The message of the CastError [Fruit.findById(value)] rejects with. *)
Definition castErrorMessage (value : string) : string :=
  ("Cast to ObjectId failed for value " ++ getStringValue value ++
   " (type string) at path " ++ dq ++ "_id" ++ dq ++ " for model " ++ dq ++ "Fruit" ++ dq)%string.

(* ---------------------------------------------------------------------------
   cartService.ts, lines 190-290 : addToCart (MongoDB path)
   --------------------------------------------------------------------------- *)

Record AddToCartDto := mkAddToCartDto { dto_fruitId : string; dto_quantity : Z }.

Definition addToCart (userId : string) (itemData : AddToCartDto) : M Cart :=
  w <- get ;;
  (* [Fruit.findById(itemData.fruitId)] casts the id first *)
  match castObjectId (dto_fruitId itemData) with
  | None => throw (castErrorMessage (dto_fruitId itemData))
  | Some fruitObjectId =>
  match fruits w fruitObjectId with
  | None => throw "Fruit not found"
  | Some fruit =>
    if negb (Fruit.inStock fruit) || (Fruit.stockQuantity fruit <? dto_quantity itemData)
    then throw "Fruit is out of stock or insufficient quantity available"
    else
      let cart := match carts w userId with Some c => c | None => empty_cart end in
      let items' :=
        (* [item.fruitId.toString() === itemData.fruitId] *)
        match findIndex (fun item => String.eqb (fruitId item) (dto_fruitId itemData)) (items cart) with
        | Some existingItemIndex =>
            update_at existingItemIndex (fun existingItem =>
              let totalQuantity := quantity existingItem + freeItems existingItem
                                   + dto_quantity itemData in
              set_paid_free existingItem
                (calculatePaidAndFree totalQuantity (Fruit.offerType fruit)))
              (items cart)
        | None =>
            let pf := calculatePaidAndFree (dto_quantity itemData) (Fruit.offerType fruit) in
            (* [fruitId: new Types.ObjectId(itemData.fruitId)], the same cast *)
            items cart ++ [mkCartItem fruitObjectId (Fruit.name fruit)
                             (Fruit.price fruit) (paid pf) (Fruit.offerType fruit) (free pf)]
        end in
      let cart' := with_totals items' in
      put (set_carts w (upd (carts w) userId (Some cart'))) ;;;
      ret cart'
  end
  end.

(* ---------------------------------------------------------------------------
   cartService.ts, lines 292-355 : updateCartItem (MongoDB path);
   [None] is the [null] result.
   --------------------------------------------------------------------------- *)

Definition updateCartItem (userId fruitId_ : string) (updateQuantity : Z) : M (option Cart) :=
  w <- get ;;
  match carts w userId with
  | None => ret None
  | Some cart =>
    match findIndex (fun item => String.eqb (fruitId item) fruitId_) (items cart) with
    | None => ret None
    | Some itemIndex =>
      let items' :=
        if updateQuantity <=? 0 then remove_at itemIndex (items cart)
        else update_at itemIndex (fun item =>
               set_paid_free item (calculatePaidAndFree updateQuantity (offerType item)))
               (items cart) in
      let cart' := with_totals items' in
      put (set_carts w (upd (carts w) userId (Some cart'))) ;;;
      ret (Some cart')
    end
  end.

(* ---------------------------------------------------------------------------
   cartService.ts, lines 357-402 : removeFromCart (MongoDB path)
   --------------------------------------------------------------------------- *)

Definition removeFromCart (userId fruitId_ : string) : M (option Cart) :=
  w <- get ;;
  match carts w userId with
  | None => ret None
  | Some cart =>
    match findIndex (fun item => String.eqb (fruitId item) fruitId_) (items cart) with
    | None => ret None
    | Some itemIndex =>
      let cart' := with_totals (remove_at itemIndex (items cart)) in
      put (set_carts w (upd (carts w) userId (Some cart'))) ;;;
      ret (Some cart')
    end
  end.

(* ---------------------------------------------------------------------------
   [checkoutData.paymentMethod.toUpperCase()] on ASCII strings
   --------------------------------------------------------------------------- *)

Definition ascii_upper (c : ascii) : ascii :=
  let n := nat_of_ascii c in
  if (97 <=? n)%nat && (n <=? 122)%nat then ascii_of_nat (n - 32) else c.

Fixpoint toUpperCase (s : string) : string :=
  match s with
  | EmptyString => EmptyString
  | String c s' => String (ascii_upper c) (toUpperCase s')
  end.

(** fruitController.ts, checkoutController: the HTTP status of a failed
    checkout, chosen from the error message. *)
Definition checkoutController_status (message : string) : Z :=
  if includes message "empty" || includes message "Invalid" || includes message "Insufficient"
  then 400 else 500.

(* ---------------------------------------------------------------------------
   cartService.ts, lines 430-562 : checkout (MongoDB path)

   The replies of the auth service and of the stock update are parameters.
   An error reply carries the message the code reads from it
   ([error.response?.data?.message || error.message]).
   --------------------------------------------------------------------------- *)

Record CheckoutDto := mkCheckoutDto { cd_paymentMethod : string; cd_notes : option string }.

Section Checkout.

(** Reply to [GET /profile]: an error message, or [user.walletBalance]. *)
Variable profileReply : string + float.
(** Reply to [POST /deduct-balance]: [Some message] when it fails. *)
Variable deductReply : option string.
(** Reply to [POST /notify-order]: [Some message] when it fails. *)
Variable notifyReply : option string.
(** Whether [Fruit.findByIdAndUpdate] rejects for a given fruit id. *)
Variable stockUpdateFails : string -> bool.

Definition auth_request (call : AuthCall) (reply : Result unit) : M unit :=
  fun w => (set_auth_calls w (auth_calls w ++ [call]), reply).

Definition getWalletBalance : M float :=
  fun w => (set_auth_calls w (auth_calls w ++ [GetProfile]),
            match profileReply with inl msg => Throw msg | inr b => Ok b end).

Definition deductBalance (amount : float) : M unit :=
  auth_request (DeductBalance amount)
    (match deductReply with Some msg => Throw msg | None => Ok tt end).

Definition notifyOrder (amount : float) : M unit :=
  auth_request (NotifyOrder amount)
    (match notifyReply with Some msg => Throw msg | None => Ok tt end).

(** [Fruit.findByIdAndUpdate(id, { $inc: { stockQuantity: -(n) } })]:
    no document for [id] is not an error. *)
Definition decrementStock (id : string) (n : Z) : M unit :=
  if stockUpdateFails id then throw "Stock update failed"
  else
    w <- get ;;
    match fruits w id with
    | None => ret tt
    | Some f =>
        put (set_fruits w (upd (fruits w) id
               (Some (Fruit.mk (Fruit.name f) (Fruit.price f) (Fruit.offerType f)
                        (Fruit.inStock f) (Fruit.stockQuantity f - n)))))
    end.

Fixpoint updateStocks (items : list CartItem) : M unit :=
  match items with
  | [] => ret tt
  | item :: rest =>
      catch (decrementStock (fruitId item) (quantity item + freeItems item))
            (fun _ => ret tt) ;;;
      updateStocks rest
  end.

Definition toTransactionItem (item : CartItem) : TransactionItem.t :=
  TransactionItem.mk (fruitId item) (name item) (quantity item) (price item)
    (offerType item) (freeItems item) (price item * Z_to_float (quantity item))%float.

(** The [try { ... } catch] block run when the method is WALLET. *)
Definition payWithWallet (finalPrice_ : float) : M unit :=
  catch
    (userBalance <- getWalletBalance ;;
     if PrimFloat.ltb userBalance finalPrice_
     then throw "Insufficient wallet balance"
     else deductBalance finalPrice_)
    (fun errorMessage => throw ("Wallet payment failed: " ++ errorMessage)%string).

Definition checkout (userId : string) (checkoutData : CheckoutDto) : M Transaction.t :=
  w <- get ;;
  cartData <-
    match carts w userId with
    | None => throw "Cart is empty"
    | Some cart =>
        match items cart with
        | [] => throw "Cart is empty"
        | _ => ret (with_totals (items cart))   (* recalculated, not saved *)
        end
    end ;;
  match items cartData with
  | [] => throw "Cart is empty"
  | _ =>
    let paymentMethod := toUpperCase (cd_paymentMethod checkoutData) in
    if negb (existsb (String.eqb paymentMethod) PaymentMethod_values)
    then throw "Invalid payment method"
    else
      (if String.eqb paymentMethod "WALLET" then payWithWallet (finalPrice cartData)
       else ret tt) ;;;
      let transactionItems := map toTransactionItem (items cartData) in
      let transaction :=
        Transaction.mk userId transactionItems (totalPrice cartData)
          (discountAmount cartData) (finalPrice cartData) "INR" paymentMethod
          COMPLETED (cd_notes checkoutData) in
      w1 <- get ;;
      put (set_transactions w1 (transactions w1 ++ [transaction])) ;;;
      updateStocks (items cartData) ;;;
      catch (notifyOrder (Transaction.finalAmount transaction)) (fun _ => ret tt) ;;;
      w2 <- get ;;
      put (set_carts w2 (upd (carts w2) userId None)) ;;;
      ret transaction
  end.

End Checkout.

(* ---------------------------------------------------------------------------
   Sequences of cart mutations
   --------------------------------------------------------------------------- *)

Inductive CartOp :=
| OpAdd (userId : string) (itemData : AddToCartDto)
| OpUpdate (userId fruitId_ : string) (updateQuantity : Z)
| OpRemove (userId fruitId_ : string).

Definition run_op (op : CartOp) (w : World) : World :=
  match op with
  | OpAdd u d => fst (addToCart u d w)
  | OpUpdate u f q => fst (updateCartItem u f q w)
  | OpRemove u f => fst (removeFromCart u f w)
  end.

Definition run_ops (ops : list CartOp) (w : World) : World :=
  fold_left (fun w op => run_op op w) ops w.

(** The totals invariant of a stored cart, as [calculateCartTotals] computes
    them: totalItems = sum of (paid + free), totalPrice and discountAmount
    each rounded from their own unrounded sum, and finalPrice rounded from
    the difference of the unrounded sums. *)
Definition cart_totals_invariant (c : Cart) : Prop :=
  let sumPrice := fold_left (fun sum item =>
        (sum + price item * Z_to_float (quantity item + freeItems item))%float) (items c) 0%float in
  let sumDiscount := calculateDiscount (items c) in
  totalItems c = fold_left (fun sum item => sum + quantity item + freeItems item) (items c) 0 /\
  totalPrice c = round2 sumPrice /\
  discountAmount c = round2 sumDiscount /\
  finalPrice c = round2 (sumPrice - sumDiscount)%float.

Definition world_totals_invariant (w : World) : Prop :=
  forall u c, carts w u = Some c -> cart_totals_invariant c.

(* ---------------------------------------------------------------------------
   A sample catalog for the concrete runs below
   --------------------------------------------------------------------------- *)

Definition sample_world (fruits_ : list (string * Fruit.t)) : World :=
  mkWorld (fun id => option_map snd (find (fun p => String.eqb (fst p) id) fruits_))
          (fun _ => None) [] [].

(** The [_id]s of the sample fruits, and the apple's id written with
    upper-case hex digits, which casts to the same ObjectId. *)
Definition apple_id : string := "65a1c0de4f1a2b3c4d5e6f01".
Definition orange_id : string := "65a1c0de4f1a2b3c4d5e6f02".
Definition kiwi_id : string := "65a1c0de4f1a2b3c4d5e6f03".
Definition apple_id_upper : string := "65A1C0DE4F1A2B3C4D5E6F01".

(** An apple at 0.125 under BUY_1_GET_1_FREE and an orange at 20 under
    BUY_2_GET_3_FREE (the spec's scenario), ten of each in stock. *)
Definition apple : Fruit.t := Fruit.mk "Apple" 0.125%float BUY_1_GET_1_FREE true 10.
Definition orange : Fruit.t := Fruit.mk "Orange" 20%float BUY_2_GET_3_FREE true 10.
Definition shop : World := sample_world [(apple_id, apple); (orange_id, orange)]%string.

(** The concrete run used to test [checkout]: user "u" holds 6 oranges. *)
Definition shop_with_oranges : World :=
  run_ops [OpAdd "u" (mkAddToCartDto orange_id 5); OpAdd "u" (mkAddToCartDto orange_id 1)] shop.

(** User "u" holds 2 apples (1 paid, 1 free), and the cart stored for them. *)
Definition shop_with_apples : World :=
  run_ops [OpAdd "u" (mkAddToCartDto apple_id 2)] shop.
Definition apple_line : CartItem := mkCartItem apple_id "Apple" 0.125%float 1 BUY_1_GET_1_FREE 1.
Definition apple_cart : Cart := with_totals [apple_line].

(** User "u" holds 8 apples, against a stock of 10. *)
Definition shop_with_8_apples : World :=
  run_ops [OpAdd "u" (mkAddToCartDto apple_id 8)] shop.

(** The cart of [shop_with_oranges]: 6 oranges, 3 paid and 3 free. *)
Definition orange_cart : Cart :=
  with_totals [mkCartItem orange_id "Orange" 20%float 3 BUY_2_GET_3_FREE 3].


(* ---------------------------------------------------------------------------
   cartService.ts, lines 127-156, 182-188, 404-428 : formatCartResponse,
   getCart, clearCart (MongoDB path)
   --------------------------------------------------------------------------- *)

(** [formatCartResponse]: no cart document reads as the empty cart. *)
Definition formatCartResponse (cart : option Cart) : Cart :=
  match cart with
  | None => empty_cart
  | Some c => c
  end.

Definition getCart (userId : string) : M Cart :=
  w <- get ;;
  ret (formatCartResponse (carts w userId)).

(** [CartModel.deleteOne({ userId })], then the empty cart. *)
Definition clearCart (userId : string) : M Cart :=
  w <- get ;;
  put (set_carts w (upd (carts w) userId None)) ;;;
  ret empty_cart.

(** [TransactionHistory.find({ userId }).sort({ createdAt: -1 })]: the
    user's transactions, newest first; transactions are stored in the order
    they were created. *)
Definition getTransactionHistory (userId : string) : M (list Transaction.t) :=
  w <- get ;;
  ret (rev (filter (fun t => String.eqb (Transaction.userId t) userId) (transactions w))).

(* ---------------------------------------------------------------------------
   fruitController.ts, lines 266-430 : the cart controllers.  A request
   body field is [None] when it is absent (a [null] quantity of the update
   request is not modelled); the JSON response is [status] with the body's
   [success], [message] and payload.
   --------------------------------------------------------------------------- *)

Record Response (A : Type) := mkResponse {
  status : Z;
  success : bool;
  message : string;
  payload : option A
}.
Arguments mkResponse {A} status success message payload.
Arguments status {A} r.
Arguments success {A} r.
Arguments message {A} r.
Arguments payload {A} r.

(** [error.message || fallback]. *)
Definition message_or (msg fallback : string) : string :=
  if String.eqb msg "" then fallback else msg.

Definition addToCartController (userId : string) (fruitId_ : option string)
    (quantity_ : option Z) : M (Response Cart) :=
  match fruitId_ with
  | None | Some EmptyString => ret (mkResponse 400 false "fruitId is required" None)
  | Some fid =>
    match quantity_ with
    | None => ret (mkResponse 400 false "quantity is required" None)
    | Some q =>
      if q <=? 0 then ret (mkResponse 400 false "Quantity must be greater than 0" None)
      else
        catch
          (cart <- addToCart userId (mkAddToCartDto fid q) ;;
           ret (mkResponse 201 true "Item added to cart successfully" (Some cart)))
          (fun errorMessage =>
             let msg := message_or errorMessage "Failed to add item to cart" in
             let code := if includes msg "not found" then 404
                         else if includes msg "out of stock" then 400 else 500 in
             ret (mkResponse code false msg None))
    end
  end.

Definition updateCartItemController (userId fruitId_ : string) (quantity_ : option Z)
    : M (Response Cart) :=
  match quantity_ with
  | None => ret (mkResponse 400 false "Quantity is required" None)
  | Some q =>
    catch
      (cart <- updateCartItem userId fruitId_ q ;;
       match cart with
       | None => ret (mkResponse 404 false "Item not found in cart" None)
       | Some c =>
           ret (mkResponse 200 true
                  (if q <=? 0 then "Item removed from cart" else "Cart item updated successfully")
                  (Some c))
       end)
      (fun _ => ret (mkResponse 500 false "Failed to update cart item" None))
  end.

Definition removeFromCartController (userId fruitId_ : string) : M (Response Cart) :=
  catch
    (cart <- removeFromCart userId fruitId_ ;;
     match cart with
     | None => ret (mkResponse 404 false "Item not found in cart" None)
     | Some c => ret (mkResponse 200 true "Item removed from cart successfully" (Some c))
     end)
    (fun _ => ret (mkResponse 500 false "Failed to remove item from cart" None)).

Definition clearCartController (userId : string) : M (Response Cart) :=
  catch
    (cart <- clearCart userId ;;
     ret (mkResponse 200 true "Cart cleared successfully" (Some cart)))
    (fun _ => ret (mkResponse 500 false "Failed to clear cart" None)).

(** [checkoutController]; an empty [paymentMethod] is falsy. *)
Definition checkoutController (profileReply : string + float)
    (deductReply notifyReply : option string) (stockUpdateFails : string -> bool)
    (userId : string) (paymentMethod_ : option string) (notes : option string)
    : M (Response Transaction.t) :=
  match paymentMethod_ with
  | None | Some EmptyString => ret (mkResponse 400 false "Payment method is required" None)
  | Some pm =>
    catch
      (transaction <- checkout profileReply deductReply notifyReply stockUpdateFails
                        userId (mkCheckoutDto pm notes) ;;
       ret (mkResponse 201 true "Checkout successful" (Some transaction)))
      (fun errorMessage =>
         let msg := message_or errorMessage "Checkout failed" in
         ret (mkResponse (checkoutController_status msg) false msg None))
  end.

(* ---------------------------------------------------------------------------
   Notions used to state properties of the code above
   --------------------------------------------------------------------------- *)

(** The user whose cart a cart operation reads and writes. *)
Definition op_user (op : CartOp) : string :=
  match op with
  | OpAdd u _ => u
  | OpUpdate u _ _ => u
  | OpRemove u _ => u
  end.

(** The transaction [checkout] builds from the lines of a cart (lines
    486-513): the lines as transaction items and the totals recomputed from
    them. *)
Definition checkout_transaction (userId : string) (checkoutData : CheckoutDto)
    (lines : list CartItem) : Transaction.t :=
  let cartData := with_totals lines in
  Transaction.mk userId (map toTransactionItem lines) (totalPrice cartData)
    (discountAmount cartData) (finalPrice cartData) "INR"
    (toUpperCase (cd_paymentMethod checkoutData)) COMPLETED (cd_notes checkoutData).

(** The fruit [Fruit.findById(id)] resolves to ([None] for [null]) when
    [id] casts to an ObjectId. *)
Definition findFruit (w : World) (id : string) : option Fruit.t :=
  match castObjectId id with Some oid => fruits w oid | None => None end.

(** An add whose id, when it casts, is the ObjectId's own [toString()], so
    that the line it stores is the one its later adds find. *)
Definition add_uses_stored_id (op : CartOp) : bool :=
  match op with
  | OpAdd _ d =>
      match castObjectId (dto_fruitId d) with
      | Some oid => String.eqb oid (dto_fruitId d)
      | None => true
      end
  | _ => true
  end.

(** Every line of the cart holds an ObjectId string, as [toString()] gives it. *)
Definition lines_hold_objectids (c : Cart) : Prop :=
  Forall (fun item => castObjectId (fruitId item) = Some (fruitId item)) (items c).

Definition world_lines_hold_objectids (w : World) : Prop :=
  forall u c, carts w u = Some c -> lines_hold_objectids c.

(** A cart holds at most one line per fruit. *)
Definition distinct_lines (c : Cart) : Prop := NoDup (map fruitId (items c)).

Definition world_distinct_lines (w : World) : Prop :=
  forall u c, carts w u = Some c -> distinct_lines c.

(** The units (paid + free) the lines of [l] hold of fruit [id]. *)
Fixpoint units_of (id : string) (l : list CartItem) : Z :=
  match l with
  | [] => 0
  | item :: rest =>
      (if String.eqb (fruitId item) id then quantity item + freeItems item else 0)
      + units_of id rest
  end.

(* ============================================================================
   THEOREMS
   ============================================================================ *)

Example calc_b1g1_5 : calculatePaidAndFree 5 BUY_1_GET_1_FREE = mkPaidFree 3 2.
Proof. reflexivity. Qed.

Example calc_b2g3_11 : calculatePaidAndFree 11 BUY_2_GET_3_FREE = mkPaidFree 4 7.
Proof. reflexivity. Qed.

Example calc_neg : calculatePaidAndFree (-3) NONE = mkPaidFree 0 0.
Proof. reflexivity. Qed.

(** Every branch of the resolver returns [free = totalQuantity - paid] and a
    [paid] between 0 and [totalQuantity] when [totalQuantity] is positive. *)
Lemma calculatePaidAndFree_bounds (t : Z) (tier : OfferType) :
  0 < t ->
  paid (calculatePaidAndFree t tier) + free (calculatePaidAndFree t tier) = t /\
  0 <= paid (calculatePaidAndFree t tier) <= t.
Proof.
  intros Ht. unfold calculatePaidAndFree, js_floor_div, js_rem, js_ceil_div.
  destruct (Z.leb_spec t 0); [lia|].
  destruct tier; cbv zeta; cbn [paid free].
  - lia.
  - rewrite (Z.rem_mod_nonneg t 2) by lia. Z.to_euclidean_division_equations. lia.
  - destruct (Z.leb_spec t 5); cbn [paid free]; Z.to_euclidean_division_equations; lia.
  - destruct (Z.leb_spec t 8); cbn [paid free]; Z.to_euclidean_division_equations; lia.
Qed.

(** C1: for every non-negative integer [totalQuantity] and every tier,
    [calculatePaidAndFree] returns [(paid, free)] with
    [paid + free = totalQuantity], [paid >= 0] and [free >= 0]; and for
    [totalQuantity <= 0] it returns [(0, 0)]. *)
Theorem C1_calculatePaidAndFree_contract :
  (forall (t : Z) (tier : OfferType), 0 <= t ->
     paid (calculatePaidAndFree t tier) + free (calculatePaidAndFree t tier) = t /\
     paid (calculatePaidAndFree t tier) >= 0 /\
     free (calculatePaidAndFree t tier) >= 0) /\
  (forall (t : Z) (tier : OfferType), t <= 0 ->
     calculatePaidAndFree t tier = mkPaidFree 0 0).
Proof.
  split.
  - intros t tier Ht. destruct (Z.eq_dec t 0) as [->|Hne].
    + destruct tier; simpl; lia.
    + destruct (calculatePaidAndFree_bounds t tier ltac:(lia)). lia.
  - intros t tier Ht. unfold calculatePaidAndFree.
    destruct (Z.leb_spec t 0); [reflexivity | lia].
Qed.

(** C2: the resolver reproduces every row of the spec's worked table, and
    for BUY_2_GET_3_FREE (C = 5, F = 2) and BUY_3_GET_5_FREE (C = 8, F = 3)
    it agrees with the spec's general policy at every non-negative
    [totalQuantity]. *)
Theorem C2_worked_values_and_policy :
  worked_table_matches = true /\
  (forall t : Z, 0 <= t ->
     calculatePaidAndFree t BUY_2_GET_3_FREE = spec_policy 5 2 t /\
     calculatePaidAndFree t BUY_3_GET_5_FREE = spec_policy 8 3 t).
Proof.
  split.
  - vm_compute. reflexivity.
  - intros t Ht. unfold calculatePaidAndFree, spec_policy.
    destruct (Z.leb_spec t 0).
    + assert (t = 0) by lia. subst. split; reflexivity.
    + cbv zeta. split; [destruct (t <=? 5) | destruct (t <=? 8)]; reflexivity.
Qed.

(** C3: the special-cased BUY_1_GET_1_FREE formula
    ([paid = floor(q / 2) + q mod 2], [free = q - paid]) gives the same pair
    as the general policy with [F = 1] and [C = 2], for every [q >= 0]. *)
Theorem C3_b1g1_refines_general_policy (t : Z) :
  0 <= t ->
  calculatePaidAndFree t BUY_1_GET_1_FREE = spec_policy 2 1 t.
Proof.
  intros Ht. unfold calculatePaidAndFree, spec_policy, js_floor_div, js_rem, js_ceil_div.
  destruct (Z.leb_spec t 0).
  - assert (t = 0) by lia. subst. reflexivity.
  - rewrite (Z.rem_mod_nonneg t 2) by lia.
    destruct (Z.leb_spec t 2).
    + assert (t = 1 \/ t = 2) as [-> | ->] by lia; reflexivity.
    + f_equal; Z.to_euclidean_division_equations; lia.
Qed.

(* ---------------------------------------------------------------------------
   Cart totals
   --------------------------------------------------------------------------- *)

Lemma with_totals_invariant (l : list CartItem) : cart_totals_invariant (with_totals l).
Proof. unfold cart_totals_invariant, with_totals, calculateCartTotals. cbn. repeat split. Qed.

Lemma world_inv_store (w : World) (u : string) (l : list CartItem) :
  world_totals_invariant w ->
  world_totals_invariant (set_carts w (upd (carts w) u (Some (with_totals l)))).
Proof.
  intros H u' c. cbn. unfold upd. destruct (String.eqb u u').
  - intros [= <-]. apply with_totals_invariant.
  - apply H.
Qed.

Ltac split_matches :=
  repeat match goal with
         | |- context [match ?x with _ => _ end] => destruct x
         | |- context [if ?x then _ else _] => destruct x
         end.

Lemma run_op_invariant (op : CartOp) (w : World) :
  world_totals_invariant w -> world_totals_invariant (run_op op w).
Proof.
  intros H. destruct op as [u d | u f q | u f]; cbn [run_op];
    unfold addToCart, updateCartItem, removeFromCart, bind, get, put, ret, throw;
    split_matches; cbn [fst]; auto using world_inv_store.
Qed.

(** C4 (amended): after any sequence of add / update / remove operations,
    every stored cart satisfies the totals invariant computed by
    [calculateCartTotals]: totalItems is the sum of paid + free, totalPrice
    and discountAmount are each rounded from their own unrounded sum, and
    finalPrice is rounded from the difference of the two unrounded sums. *)
Theorem C4_totals_invariant_preserved (ops : list CartOp) (w : World) :
  world_totals_invariant w -> world_totals_invariant (run_ops ops w).
Proof.
  revert w. induction ops as [|op ops IH]; intros w H; cbn.
  - exact H.
  - apply IH. apply run_op_invariant. exact H.
Qed.

Lemma C4_totals_invariant_witness :
  world_totals_invariant shop /\
  world_totals_invariant
    (run_ops [OpAdd "u" (mkAddToCartDto apple_id 2); OpAdd "u" (mkAddToCartDto orange_id 6);
              OpUpdate "u" apple_id 5; OpRemove "u" orange_id] shop).
Proof.
  assert (H0 : world_totals_invariant shop) by (intros u c Hc; discriminate Hc).
  split; [exact H0 | exact (C4_totals_invariant_preserved _ shop H0)].
Defined.

(** C4, the claim as stated: two apples at 0.125 under BUY_1_GET_1_FREE
    (1 paid, 1 free) give totalPrice 0.25, discountAmount 0.13 and
    finalPrice 0.13, while round2(totalPrice - discountAmount) is 0.12. *)
Lemma C4_counterexample :
  match carts (run_ops [OpAdd "u" (mkAddToCartDto apple_id 2)] shop) "u" with
  | Some c =>
      totalPrice c = 0.25%float /\ discountAmount c = 0.13%float /\
      finalPrice c = 0.13%float /\
      finalPrice c <> round2 (totalPrice c - discountAmount c)%float
  | None => False
  end.
Proof. vm_compute. split; [reflexivity | split; [reflexivity | split; [reflexivity | discriminate]]]. Qed.

(* ---------------------------------------------------------------------------
   Array helpers
   --------------------------------------------------------------------------- *)

Lemma findIndex_some {A} (p : A -> bool) (l : list A) (i : nat) :
  findIndex p l = Some i -> exists x, nth_error l i = Some x /\ p x = true.
Proof.
  revert i. induction l as [|x l IH]; intros i H; cbn in H; [discriminate|].
  destruct (p x) eqn:Hp.
  - injection H as <-. exists x. auto.
  - destruct (findIndex p l) as [j|] eqn:Hj; [|discriminate].
    injection H as <-. cbn. apply IH. reflexivity.
Qed.

Lemma nth_error_update_at {A} (i : nat) (f : A -> A) (l : list A) (x : A) :
  nth_error l i = Some x -> nth_error (update_at i f l) i = Some (f x).
Proof.
  revert i. induction l as [|y l IH]; intros [|i] H; cbn in *; try discriminate.
  - congruence.
  - apply IH. exact H.
Qed.


Lemma nth_error_update_at_other {A} (i j : nat) (f : A -> A) (l : list A) :
  i <> j -> nth_error (update_at i f l) j = nth_error l j.
Proof.
  revert i j. induction l as [|y l IH]; intros [|i] [|j] Hne; cbn; auto; try congruence.
Qed.

(** The world in which [addToCart] stores its resulting cart. *)
Lemma addToCart_success (w : World) (u : string) (d : AddToCartDto) (oid : string)
    (fruit : Fruit.t) :
  castObjectId (dto_fruitId d) = Some oid ->
  fruits w oid = Some fruit ->
  Fruit.inStock fruit = true ->
  dto_quantity d <= Fruit.stockQuantity fruit ->
  let cart := match carts w u with Some c => c | None => empty_cart end in
  let items' :=
    match findIndex (fun item => String.eqb (fruitId item) (dto_fruitId d)) (items cart) with
    | Some i =>
        update_at i (fun existingItem =>
          set_paid_free existingItem
            (calculatePaidAndFree (quantity existingItem + freeItems existingItem + dto_quantity d)
               (Fruit.offerType fruit))) (items cart)
    | None =>
        let pf := calculatePaidAndFree (dto_quantity d) (Fruit.offerType fruit) in
        items cart ++ [mkCartItem oid (Fruit.name fruit) (Fruit.price fruit)
                         (paid pf) (Fruit.offerType fruit) (free pf)]
    end in
  addToCart u d w =
    (set_carts w (upd (carts w) u (Some (with_totals items'))), Ok (with_totals items')).
Proof.
  intros Ho Hf Hs Hq. unfold addToCart, bind, get, put, ret. rewrite Ho, Hf, Hs.
  destruct (Z.ltb_spec (Fruit.stockQuantity fruit) (dto_quantity d)); [lia|].
  reflexivity.
Qed.

Lemma findFruit_some (w : World) (id : string) (fruit : Fruit.t) :
  findFruit w id = Some fruit ->
  exists oid, castObjectId id = Some oid /\ fruits w oid = Some fruit.
Proof.
  unfold findFruit. destruct (castObjectId id) as [oid|]; [|discriminate].
  intros H. exists oid. split; [reflexivity | exact H].
Qed.



Lemma length_remove_at {A} (i : nat) (l : list A) (x : A) :
  nth_error l i = Some x -> S (List.length (remove_at i l)) = List.length l.
Proof.
  revert i. induction l as [|y l IH]; intros [|i] H; cbn in *; try discriminate; auto.
Qed.

Lemma updateCartItem_found (w : World) (u f : string) (q : Z) (cart : Cart) (i : nat) :
  carts w u = Some cart ->
  findIndex (fun item => String.eqb (fruitId item) f) (items cart) = Some i ->
  let items' :=
    if q <=? 0 then remove_at i (items cart)
    else update_at i (fun item =>
           set_paid_free item (calculatePaidAndFree q (offerType item))) (items cart) in
  updateCartItem u f q w =
    (set_carts w (upd (carts w) u (Some (with_totals items'))), Ok (Some (with_totals items'))).
Proof.
  intros Hc Hi. unfold updateCartItem, bind, get, put, ret. rewrite Hc, Hi. reflexivity.
Qed.

(** C6: [updateCartItem] reads the quantity as the new absolute total.  With
    no cart or no line for the fruit it returns [null] and leaves the state
    as it was; with a quantity [<= 0] it removes the line; otherwise it
    resolves the new total with the tier stored on the line (the catalog is
    not read), so that the line holds exactly that many units; in both
    cases the stored cart's totals are recomputed from its items. *)
Theorem C6_updateCartItem_sets_absolute_quantity :
  (forall (w : World) (u f : string) (q : Z),
     (carts w u = None \/
      exists cart, carts w u = Some cart /\
        findIndex (fun item => String.eqb (fruitId item) f) (items cart) = None) ->
     updateCartItem u f q w = (w, Ok None)) /\
  (forall (w : World) (u f : string) (q : Z) (cart : Cart) (i : nat),
     carts w u = Some cart ->
     findIndex (fun item => String.eqb (fruitId item) f) (items cart) = Some i ->
     q <= 0 ->
     exists cart',
       updateCartItem u f q w = (set_carts w (upd (carts w) u (Some cart')), Ok (Some cart')) /\
       items cart' = remove_at i (items cart) /\
       S (List.length (items cart')) = List.length (items cart) /\
       cart' = with_totals (items cart')) /\
  (forall (w : World) (u f : string) (q : Z) (cart : Cart) (i : nat) (line : CartItem),
     carts w u = Some cart ->
     findIndex (fun item => String.eqb (fruitId item) f) (items cart) = Some i ->
     nth_error (items cart) i = Some line ->
     0 < q ->
     exists cart',
       updateCartItem u f q w = (set_carts w (upd (carts w) u (Some cart')), Ok (Some cart')) /\
       nth_error (items cart') i =
         Some (set_paid_free line (calculatePaidAndFree q (offerType line))) /\
       paid (calculatePaidAndFree q (offerType line))
         + free (calculatePaidAndFree q (offerType line)) = q /\
       (forall j, j <> i -> nth_error (items cart') j = nth_error (items cart) j) /\
       cart' = with_totals (items cart')).
Proof.
  split; [|split].
  - intros w u f q [Hc | [cart [Hc Hi]]]; unfold updateCartItem, bind, get, ret;
      rewrite Hc; [reflexivity|]. rewrite Hi. reflexivity.
  - intros w u f q cart i Hc Hi Hq.
    rewrite (updateCartItem_found w u f q cart i Hc Hi). cbv zeta.
    destruct (Z.leb_spec q 0); [|lia].
    eexists. split; [reflexivity|]. cbn [with_totals items]. split; [reflexivity|].
    split; [|reflexivity].
    destruct (findIndex_some _ _ _ Hi) as [x [Hx _]].
    apply (length_remove_at i _ x Hx).
  - intros w u f q cart i line Hc Hi Hl Hq.
    rewrite (updateCartItem_found w u f q cart i Hc Hi). cbv zeta.
    destruct (Z.leb_spec q 0); [lia|].
    eexists. split; [reflexivity|]. cbn [with_totals items]. split; [|split; [|split]].
    + rewrite (nth_error_update_at _ _ _ line Hl). reflexivity.
    + apply (calculatePaidAndFree_bounds q (offerType line) Hq).
    + intros j Hj. apply nth_error_update_at_other. congruence.
    + reflexivity.
Qed.

(** C10: the stock check of [addToCart] compares [stockQuantity] with the
    requested quantity only: for any cart, an add of [q] units of a fruit
    that [Fruit.findById] finds, in stock with [stockQuantity >= q] succeeds, whatever the cart already
    holds; and [updateCartItem] does no stock check: any positive absolute
    quantity for an existing line is accepted. *)
Theorem C10_stock_check_only_on_increment :
  (forall (w : World) (u : string) (d : AddToCartDto) (fruit : Fruit.t),
     findFruit w (dto_fruitId d) = Some fruit ->
     Fruit.inStock fruit = true ->
     dto_quantity d <= Fruit.stockQuantity fruit ->
     exists c, addToCart u d w = (set_carts w (upd (carts w) u (Some c)), Ok c)) /\
  (forall (w : World) (u f : string) (q : Z) (cart : Cart) (i : nat),
     carts w u = Some cart ->
     findIndex (fun item => String.eqb (fruitId item) f) (items cart) = Some i ->
     0 < q ->
     exists c, updateCartItem u f q w = (set_carts w (upd (carts w) u (Some c)), Ok (Some c))).
Proof.
  split.
  - intros w u d fruit Hf Hs Hq. destruct (findFruit_some _ _ _ Hf) as [oid [Ho Hf']].
    eexists. exact (addToCart_success w u d oid fruit Ho Hf' Hs Hq).
  - intros w u f q cart i Hc Hi Hq. eexists. exact (updateCartItem_found w u f q cart i Hc Hi).
Qed.

(* ---------------------------------------------------------------------------
   Checkout
   --------------------------------------------------------------------------- *)

Section CheckoutFacts.

Variable profileReply : string + float.
Variable deductReply notifyReply : option string.
Variable stockUpdateFails : string -> bool.

(** What a step of checkout leaves untouched. *)
Definition keeps_carts_tx {A} (m : M A) : Prop :=
  forall w, carts (fst (m w)) = carts w /\ transactions (fst (m w)) = transactions w.

Lemma payWithWallet_frame (amount : float) :
  keeps_carts_tx (payWithWallet profileReply deductReply amount).
Proof.
  intros w. unfold payWithWallet, getWalletBalance, deductBalance, auth_request,
    catch, bind, throw.
  destruct profileReply as [msg|b]; cbn; [auto|].
  destruct (PrimFloat.ltb b amount); cbn; [auto|].
  destruct deductReply; cbn; auto.
Qed.

Lemma updateStocks_frame (l : list CartItem) :
  keeps_carts_tx (updateStocks stockUpdateFails l).
Proof.
  induction l as [|item l IH]; intros w; cbn; [auto|].
  unfold bind, catch, decrementStock, bind, get, put, ret, throw.
  destruct (stockUpdateFails (fruitId item)).
  - apply IH.
  - destruct (fruits w (fruitId item)); [|apply IH].
    destruct (IH (set_fruits w (upd (fruits w) (fruitId item) (Some
      (Fruit.mk (Fruit.name t) (Fruit.price t) (Fruit.offerType t) (Fruit.inStock t)
         (Fruit.stockQuantity t - (quantity item + freeItems item))))))) as [Hc Ht].
    rewrite Hc, Ht. auto.
Qed.

Lemma notify_frame (amount : float) :
  keeps_carts_tx (catch (notifyOrder notifyReply amount) (fun _ => ret tt)).
Proof.
  intros w. unfold catch, notifyOrder, auth_request, ret.
  destruct notifyReply; cbn; auto.
Qed.

(** A successful checkout read a non-empty cart, appended the transaction
    built from its lines to the TransactionHistory and removed the cart. *)
Lemma checkout_success (w w' : World) (u : string) (data : CheckoutDto)
      (tx : Transaction.t) :
  checkout profileReply deductReply notifyReply stockUpdateFails u data w = (w', Ok tx) ->
  exists cart,
    carts w u = Some cart /\ items cart <> [] /\
    tx = Transaction.mk u (map toTransactionItem (items cart))
           (totalPrice (with_totals (items cart)))
           (discountAmount (with_totals (items cart)))
           (finalPrice (with_totals (items cart))) "INR"
           (toUpperCase (cd_paymentMethod data)) COMPLETED (cd_notes data) /\
    transactions w' = transactions w ++ [tx] /\
    carts w' u = None.
Proof.
  intros H. unfold checkout, bind, get, put, ret, throw in H.
  destruct (carts w u) as [cart|] eqn:Hc; [|discriminate H].
  exists cart. split; [reflexivity|].
  destruct (items cart) as [|x l] eqn:Hi; [discriminate H|].
  split; [discriminate|].
  cbn [with_totals items] in H.
  destruct (negb _); [discriminate H|].
  match type of H with
  | context [match ?m w with _ => _ end] =>
      destruct (m w) as [w1 [[]|msg1]] eqn:E1; [|discriminate H];
      assert (F1 : keeps_carts_tx m)
        by (destruct (String.eqb _ _); [apply payWithWallet_frame | intros w0; auto])
  end.
  destruct (F1 w) as [F1c F1t]. rewrite E1 in F1c, F1t. cbn [fst] in F1c, F1t.
  cbn [set_transactions transactions carts] in H.
  match type of H with
  | context [match updateStocks _ _ ?w2 with _ => _ end] =>
      destruct (updateStocks stockUpdateFails (x :: l) w2) as [w3 [[]|msg3]] eqn:E3;
        [|discriminate H];
      destruct (updateStocks_frame (x :: l) w2) as [F3c F3t];
      rewrite E3 in F3c, F3t; cbn [fst] in F3c, F3t
  end.
  match type of H with
  | context [match catch (notifyOrder _ ?a) ?h w3 with _ => _ end] =>
      destruct (catch (notifyOrder notifyReply a) h w3)
        as [w4 [[]|msg4]] eqn:E4; [|discriminate H];
      destruct (notify_frame a w3) as [F4c F4t];
      change (catch (notifyOrder notifyReply a) (fun _ => ret tt) w3)
        with (catch (notifyOrder notifyReply a) h w3) in F4c, F4t;
      rewrite E4 in F4c, F4t; cbn [fst] in F4c, F4t
  end.
  injection H as <- <-.
  split; [reflexivity|]. cbn [set_carts transactions carts].
  split.
  - rewrite F4t, F3t. cbn [transactions]. rewrite F1t. reflexivity.
  - unfold upd. rewrite String.eqb_refl. reflexivity.
Qed.

End CheckoutFacts.

(** C7: every item of the transaction a successful checkout persists is
    priced on its paid units only ([subtotal = pricePerUnit * quantity],
    with [quantity] the line's paid count and the line's free count recorded
    in [freeItemsReceived]), and the persisted transaction has status
    COMPLETED. *)
Theorem C7_transaction_items_priced_on_paid_units
  (profileReply : string + float) (deductReply notifyReply : option string)
  (stockUpdateFails : string -> bool) (w w' : World) (u : string) (data : CheckoutDto)
  (tx : Transaction.t) :
  checkout profileReply deductReply notifyReply stockUpdateFails u data w = (w', Ok tx) ->
  Transaction.status tx = COMPLETED /\
  transactions w' = transactions w ++ [tx] /\
  exists cart,
    carts w u = Some cart /\
    Forall2 (fun line ti =>
        TransactionItem.fruitId ti = fruitId line /\
        TransactionItem.quantity ti = quantity line /\
        TransactionItem.freeItemsReceived ti = freeItems line /\
        TransactionItem.pricePerUnit ti = price line /\
        TransactionItem.subtotal ti = (price line * Z_to_float (quantity line))%float)
      (items cart) (Transaction.items tx).
Proof.
  intros H.
  destruct (checkout_success profileReply deductReply notifyReply stockUpdateFails
              w w' u data tx H) as [cart [Hc [_ [Htx [Ht _]]]]].
  subst tx. split; [reflexivity|]. split; [exact Ht|].
  exists cart. split; [exact Hc|]. cbn [Transaction.items].
  clear. induction (items cart) as [|line l IH]; cbn.
  - constructor.
  - constructor; [repeat split | exact IH].
Qed.

(** C8: checkout of a user with no cart, or with a cart without lines, fails
    with "Cart is empty" (the message the controller answers with 400) and
    changes nothing: no transaction is created. *)
Theorem C8_checkout_empty_cart
  (profileReply : string + float) (deductReply notifyReply : option string)
  (stockUpdateFails : string -> bool) (w : World) (u : string) (data : CheckoutDto) :
  (carts w u = None \/ exists cart, carts w u = Some cart /\ items cart = []) ->
  checkout profileReply deductReply notifyReply stockUpdateFails u data w
    = (w, Throw "Cart is empty") /\
  checkoutController_status "Cart is empty" = 400.
Proof.
  intros Hc. split; [|reflexivity].
  unfold checkout, bind, get, throw.
  destruct Hc as [Hc | [cart [Hc Hi]]]; rewrite Hc; [reflexivity|].
  rewrite Hi. reflexivity.
Qed.

(** C9: a WALLET checkout of a non-empty cart whose stored totals are the
    ones [calculateCartTotals] gives (the invariant of C4), when the auth
    service reports a balance strictly below the cart's finalPrice, fails
    with "Wallet payment failed: Insufficient wallet balance" (the
    controller's 400 answer), having sent no deduct-balance request (only
    the profile request), created no transaction, and left the carts and
    the catalog as they were. *)
Theorem C9_wallet_insufficient_balance
  (balance : float) (deductReply notifyReply : option string)
  (stockUpdateFails : string -> bool) (w : World) (u : string) (data : CheckoutDto)
  (cart : Cart) :
  carts w u = Some cart ->
  items cart <> [] ->
  cart_totals_invariant cart ->
  toUpperCase (cd_paymentMethod data) = "WALLET"%string ->
  PrimFloat.ltb balance (finalPrice cart) = true ->
  exists w',
    checkout (inr balance) deductReply notifyReply stockUpdateFails u data w
      = (w', Throw "Wallet payment failed: Insufficient wallet balance") /\
    auth_calls w' = auth_calls w ++ [GetProfile] /\
    transactions w' = transactions w /\
    carts w' = carts w /\
    fruits w' = fruits w /\
    checkoutController_status "Wallet payment failed: Insufficient wallet balance" = 400.
Proof.
  intros Hc Hne [_ [_ [_ Hfp]]] Hm Hlt.
  assert (Hfin : finalPrice (with_totals (items cart)) = finalPrice cart)
    by (rewrite Hfp; reflexivity).
  unfold checkout, bind, get, put, ret, throw. rewrite Hc.
  destruct (items cart) as [|x l] eqn:Hi; [congruence|].
  cbn [with_totals items]. rewrite Hm. cbn [negb existsb PaymentMethod_values].
  change (String.eqb "WALLET" "CASH") with false.
  change (String.eqb "WALLET" "CREDIT_CARD") with false.
  change (String.eqb "WALLET" "DEBIT_CARD") with false.
  change (String.eqb "WALLET" "UPI") with false.
  change (String.eqb "WALLET" "NET_BANKING") with false.
  change (String.eqb "WALLET" "WALLET") with true. cbn [orb negb].
  unfold payWithWallet, getWalletBalance, catch, bind, throw.
  cbn [with_totals] in Hfin. cbn [finalPrice] in Hfin |- *. rewrite Hfin, Hlt.
  eexists. split; [reflexivity|]. cbn. repeat split.
Qed.

(* ---------------------------------------------------------------------------
   Witnesses: each theorem applied at a concrete input
   --------------------------------------------------------------------------- *)

Lemma C1_calculatePaidAndFree_contract_witness :
  (0 <= 7 /\
   paid (calculatePaidAndFree 7 BUY_2_GET_3_FREE) + free (calculatePaidAndFree 7 BUY_2_GET_3_FREE) = 7 /\
   paid (calculatePaidAndFree 7 BUY_2_GET_3_FREE) >= 0 /\
   free (calculatePaidAndFree 7 BUY_2_GET_3_FREE) >= 0) /\
  (-1 <= 0 /\ calculatePaidAndFree (-1) BUY_3_GET_5_FREE = mkPaidFree 0 0).
Proof.
  split; split; [lia | apply (proj1 C1_calculatePaidAndFree_contract 7 BUY_2_GET_3_FREE); lia
                | lia | apply (proj2 C1_calculatePaidAndFree_contract (-1) BUY_3_GET_5_FREE); lia].
Defined.

Lemma C2_worked_values_and_policy_witness :
  0 <= 13 /\
  calculatePaidAndFree 13 BUY_2_GET_3_FREE = spec_policy 5 2 13 /\
  calculatePaidAndFree 13 BUY_3_GET_5_FREE = spec_policy 8 3 13.
Proof.
  split; [lia | apply (proj2 C2_worked_values_and_policy 13); lia].
Defined.

Lemma C3_b1g1_refines_general_policy_witness :
  0 <= 9 /\ calculatePaidAndFree 9 BUY_1_GET_1_FREE = spec_policy 2 1 9.
Proof. split; [lia | apply (C3_b1g1_refines_general_policy 9); lia]. Defined.


Lemma C6_updateCartItem_sets_absolute_quantity_witness :
  updateCartItem "u" apple_id 4 shop = (shop, Ok None) /\
  updateCartItem "u" "pear" 4 shop_with_apples = (shop_with_apples, Ok None) /\
  (exists cart',
     updateCartItem "u" apple_id 0 shop_with_apples
       = (set_carts shop_with_apples (upd (carts shop_with_apples) "u" (Some cart')),
          Ok (Some cart')) /\
     items cart' = remove_at 0 (items apple_cart) /\
     S (List.length (items cart')) = List.length (items apple_cart) /\
     cart' = with_totals (items cart')) /\
  (exists cart',
     updateCartItem "u" apple_id 5 shop_with_apples
       = (set_carts shop_with_apples (upd (carts shop_with_apples) "u" (Some cart')),
          Ok (Some cart')) /\
     nth_error (items cart') 0 =
       Some (set_paid_free apple_line (calculatePaidAndFree 5 (offerType apple_line))) /\
     paid (calculatePaidAndFree 5 (offerType apple_line))
       + free (calculatePaidAndFree 5 (offerType apple_line)) = 5 /\
     (forall j, j <> 0%nat -> nth_error (items cart') j = nth_error (items apple_cart) j) /\
     cart' = with_totals (items cart')).
Proof.
  destruct C6_updateCartItem_sets_absolute_quantity as [Ha [Hb Hc]].
  split; [|split; [|split]].
  - apply Ha. left. reflexivity.
  - apply Ha. right. exists apple_cart. split; vm_compute; reflexivity.
  - apply (Hb shop_with_apples "u"%string apple_id 0 apple_cart 0%nat); try (vm_compute; reflexivity); lia.
  - apply (Hc shop_with_apples "u"%string apple_id 5 apple_cart 0%nat apple_line);
      try (vm_compute; reflexivity); lia.
Defined.

Lemma C7_transaction_items_priced_on_paid_units_witness :
  match checkout (inr 0%float) None None (fun _ => false) "u"
          (mkCheckoutDto "credit_card" None) shop_with_oranges with
  | (w', Ok tx) =>
      Transaction.status tx = COMPLETED /\
      transactions w' = transactions shop_with_oranges ++ [tx] /\
      exists cart,
        carts shop_with_oranges "u" = Some cart /\
        Forall2 (fun line ti =>
            TransactionItem.fruitId ti = fruitId line /\
            TransactionItem.quantity ti = quantity line /\
            TransactionItem.freeItemsReceived ti = freeItems line /\
            TransactionItem.pricePerUnit ti = price line /\
            TransactionItem.subtotal ti = (price line * Z_to_float (quantity line))%float)
          (items cart) (Transaction.items tx)
  | (_, Throw _) => False
  end.
Proof.
  destruct (checkout (inr 0%float) None None (fun _ => false) "u"%string
              (mkCheckoutDto "credit_card"%string None) shop_with_oranges) as [w' [tx|msg]] eqn:E.
  - exact (C7_transaction_items_priced_on_paid_units _ _ _ _ _ _ _ _ _ E).
  - vm_compute in E. discriminate E.
Defined.

Lemma C8_checkout_empty_cart_witness :
  checkout (inr 100%float) None None (fun _ => false) "u" (mkCheckoutDto "CASH" None) shop
    = (shop, Throw "Cart is empty") /\
  checkoutController_status "Cart is empty" = 400.
Proof.
  apply C8_checkout_empty_cart. left. reflexivity.
Defined.

Lemma C9_wallet_insufficient_balance_witness :
  carts shop_with_oranges "u" = Some orange_cart /\
  PrimFloat.ltb 10%float (finalPrice orange_cart) = true /\
  exists w',
    checkout (inr 10%float) None None (fun _ => false) "u"
      (mkCheckoutDto "wallet" None) shop_with_oranges
      = (w', Throw "Wallet payment failed: Insufficient wallet balance") /\
    auth_calls w' = auth_calls shop_with_oranges ++ [GetProfile] /\
    transactions w' = transactions shop_with_oranges /\
    carts w' = carts shop_with_oranges /\
    fruits w' = fruits shop_with_oranges /\
    checkoutController_status "Wallet payment failed: Insufficient wallet balance" = 400.
Proof.
  split; [vm_compute; reflexivity|]. split; [vm_compute; reflexivity|].
  apply (C9_wallet_insufficient_balance 10%float None None (fun _ => false)
           shop_with_oranges "u"%string (mkCheckoutDto "wallet"%string None) orange_cart).
  - vm_compute. reflexivity.
  - discriminate.
  - apply with_totals_invariant.
  - reflexivity.
  - vm_compute. reflexivity.
Defined.

Lemma C10_stock_check_only_on_increment_witness :
  (map (fun item => quantity item + freeItems item)
     (match carts shop_with_8_apples "u" with Some c => items c | None => [] end) = [8] /\
   8 + 5 > Fruit.stockQuantity apple /\
   exists c, addToCart "u" (mkAddToCartDto apple_id 5) shop_with_8_apples
               = (set_carts shop_with_8_apples (upd (carts shop_with_8_apples) "u" (Some c)), Ok c)) /\
  (100 > Fruit.stockQuantity apple /\
   exists c, updateCartItem "u" apple_id 100 shop_with_apples
               = (set_carts shop_with_apples (upd (carts shop_with_apples) "u" (Some c)),
                  Ok (Some c))).
Proof.
  split; [split; [vm_compute; reflexivity | split; [cbn; lia|]] | split; [cbn; lia|]].
  - apply (proj1 C10_stock_check_only_on_increment shop_with_8_apples "u"%string
             (mkAddToCartDto apple_id 5) apple); try (vm_compute; reflexivity); cbn; lia.
  - apply (proj2 C10_stock_check_only_on_increment shop_with_apples "u"%string apple_id 100
             apple_cart 0%nat); try (vm_compute; reflexivity); lia.
Defined.

(* ---------------------------------------------------------------------------
   Further properties of the cart service and its controllers
   --------------------------------------------------------------------------- *)

(** One more unit in the total adds exactly one unit to either the paid or
    the free count, for every tier. *)
Theorem calculatePaidAndFree_step (t : Z) (tier : OfferType) :
  0 <= t ->
  (paid (calculatePaidAndFree (t + 1) tier) = paid (calculatePaidAndFree t tier) + 1 /\
   free (calculatePaidAndFree (t + 1) tier) = free (calculatePaidAndFree t tier)) \/
  (paid (calculatePaidAndFree (t + 1) tier) = paid (calculatePaidAndFree t tier) /\
   free (calculatePaidAndFree (t + 1) tier) = free (calculatePaidAndFree t tier) + 1).
Proof.
  intros Ht. destruct (Z.eq_dec t 0) as [->|Hne]; [destruct tier; cbn; lia|].
  unfold calculatePaidAndFree, js_floor_div, js_rem, js_ceil_div.
  destruct (Z.leb_spec t 0); [lia|]. destruct (Z.leb_spec (t + 1) 0); [lia|].
  destruct tier; cbv zeta; cbn [paid free].
  - lia.
  - rewrite (Z.rem_mod_nonneg t 2), (Z.rem_mod_nonneg (t + 1) 2) by lia.
    Z.to_euclidean_division_equations. lia.
  - destruct (Z.leb_spec t 5); destruct (Z.leb_spec (t + 1) 5); cbn [paid free];
      Z.to_euclidean_division_equations; lia.
  - destruct (Z.leb_spec t 8); destruct (Z.leb_spec (t + 1) 8); cbn [paid free];
      Z.to_euclidean_division_equations; lia.
Qed.

Lemma calculatePaidAndFree_step_witness :
  0 <= 5 /\
  ((paid (calculatePaidAndFree (5 + 1) BUY_2_GET_3_FREE)
      = paid (calculatePaidAndFree 5 BUY_2_GET_3_FREE) + 1 /\
    free (calculatePaidAndFree (5 + 1) BUY_2_GET_3_FREE)
      = free (calculatePaidAndFree 5 BUY_2_GET_3_FREE)) \/
   (paid (calculatePaidAndFree (5 + 1) BUY_2_GET_3_FREE)
      = paid (calculatePaidAndFree 5 BUY_2_GET_3_FREE) /\
    free (calculatePaidAndFree (5 + 1) BUY_2_GET_3_FREE)
      = free (calculatePaidAndFree 5 BUY_2_GET_3_FREE) + 1)).
Proof. split; [lia | apply (calculatePaidAndFree_step 5 BUY_2_GET_3_FREE); lia]. Defined.

(** [addToCart] of an id that is not 24 hex digits rejects with Mongoose's
    CastError, before any lookup; of an ObjectId the catalog does not hold,
    with "Fruit not found"; neither writes anything. *)
Theorem addToCart_fruit_not_found (w : World) (u : string) (d : AddToCartDto) :
  (castObjectId (dto_fruitId d) = None ->
     addToCart u d w = (w, Throw (castErrorMessage (dto_fruitId d)))) /\
  (forall oid, castObjectId (dto_fruitId d) = Some oid -> fruits w oid = None ->
     addToCart u d w = (w, Throw "Fruit not found")).
Proof.
  split.
  - intros Ho. unfold addToCart, bind, get, throw. rewrite Ho. reflexivity.
  - intros oid Ho Hf. unfold addToCart, bind, get, throw. rewrite Ho, Hf. reflexivity.
Qed.

Lemma addToCart_fruit_not_found_witness :
  castObjectId "pear" = None /\
  addToCart "u" (mkAddToCartDto "pear" 1) shop
    = (shop, Throw (castErrorMessage "pear")) /\
  castErrorMessage "pear" =
    ("Cast to ObjectId failed for value " ++ dq ++ "pear" ++ dq ++ " (type string) at path "
     ++ dq ++ "_id" ++ dq ++ " for model " ++ dq ++ "Fruit" ++ dq)%string /\
  castObjectId kiwi_id = Some kiwi_id /\ fruits shop kiwi_id = None /\
  addToCart "u" (mkAddToCartDto kiwi_id 1) shop = (shop, Throw "Fruit not found").
Proof.
  split; [vm_compute; reflexivity|]. split.
  - apply (proj1 (addToCart_fruit_not_found shop "u"%string (mkAddToCartDto "pear" 1))).
    vm_compute. reflexivity.
  - split; [vm_compute; reflexivity|]. split; [vm_compute; reflexivity|].
    split; [vm_compute; reflexivity|].
    apply (proj2 (addToCart_fruit_not_found shop "u"%string (mkAddToCartDto kiwi_id 1))
             kiwi_id); vm_compute; reflexivity.
Defined.

(** [addToCart] of a fruit that is marked out of stock, or whose stock is
    below the requested quantity, fails and writes nothing. *)
Theorem addToCart_out_of_stock (w : World) (u : string) (d : AddToCartDto) (fruit : Fruit.t) :
  findFruit w (dto_fruitId d) = Some fruit ->
  Fruit.inStock fruit = false \/ Fruit.stockQuantity fruit < dto_quantity d ->
  addToCart u d w = (w, Throw "Fruit is out of stock or insufficient quantity available").
Proof.
  intros Hf Hs. destruct (findFruit_some _ _ _ Hf) as [oid [Ho Hf']].
  unfold addToCart, bind, get, throw. rewrite Ho, Hf'.
  destruct Hs as [Hs | Hs].
  - rewrite Hs. reflexivity.
  - apply Z.ltb_lt in Hs. rewrite Hs, orb_true_r. reflexivity.
Qed.

Lemma addToCart_out_of_stock_witness :
  findFruit shop apple_id = Some apple /\
  addToCart "u" (mkAddToCartDto apple_id 11) shop
    = (shop, Throw "Fruit is out of stock or insufficient quantity available").
Proof.
  split; [vm_compute; reflexivity|]. apply (addToCart_out_of_stock shop "u"%string _ apple).
  - vm_compute. reflexivity.
  - right. cbn. lia.
Defined.

(** [addToCart] of a fruit the cart has no line for appends one line at the
    end, stored under the ObjectId the id casts to (its lower-case
    [toString()]), with the catalog's name, price and tier and the
    requested quantity resolved by [calculatePaidAndFree]; the earlier
    lines are kept as they are, and the stored cart is the one returned. *)
Theorem addToCart_appends_new_line (w : World) (u : string) (d : AddToCartDto)
    (oid : string) (fruit : Fruit.t) :
  castObjectId (dto_fruitId d) = Some oid ->
  fruits w oid = Some fruit ->
  Fruit.inStock fruit = true ->
  dto_quantity d <= Fruit.stockQuantity fruit ->
  findIndex (fun item => String.eqb (fruitId item) (dto_fruitId d))
    (items (formatCartResponse (carts w u))) = None ->
  let pf := calculatePaidAndFree (dto_quantity d) (Fruit.offerType fruit) in
  let cart' := with_totals (items (formatCartResponse (carts w u)) ++
                 [mkCartItem oid (Fruit.name fruit) (Fruit.price fruit)
                    (paid pf) (Fruit.offerType fruit) (free pf)]) in
  oid = toLowerCase (dto_fruitId d) /\
  addToCart u d w = (set_carts w (upd (carts w) u (Some cart')), Ok cart').
Proof.
  intros Ho Hf Hs Hq Hi. split.
  - revert Ho. unfold castObjectId. destruct (_ && _); congruence.
  - rewrite (addToCart_success w u d oid fruit Ho Hf Hs Hq). cbv zeta.
    unfold formatCartResponse in Hi |- *. destruct (carts w u); rewrite Hi; reflexivity.
Qed.

Lemma addToCart_appends_new_line_witness :
  snd (addToCart "u" (mkAddToCartDto apple_id 3) shop_with_oranges)
    = Ok (with_totals (items orange_cart ++
                       [mkCartItem apple_id "Apple" 0.125%float 2 BUY_1_GET_1_FREE 1])).
Proof.
  pose proof (addToCart_appends_new_line shop_with_oranges "u"%string
                (mkAddToCartDto apple_id 3) apple_id apple) as E.
  cbv zeta in E.
  rewrite (proj2 (E ltac:(vm_compute; reflexivity) ltac:(vm_compute; reflexivity)
                    ltac:(reflexivity) ltac:(cbn; lia) ltac:(vm_compute; reflexivity))).
  vm_compute. reflexivity.
Defined.

Lemma findIndex_none_of_forall {A} (p : A -> bool) (l : list A) :
  (forall x, In x l -> p x = false) -> findIndex p l = None.
Proof.
  induction l as [|y l IH]; intros H; cbn; [reflexivity|].
  rewrite (H y (or_introl eq_refl)). rewrite IH; [reflexivity|].
  intros x Hx. apply H. right. exact Hx.
Qed.

(** [addToCart] of an id written with upper-case hex digits (it casts to an
    ObjectId whose [toString()] differs from it) never finds a line of a
    cart whose lines hold ObjectId strings, which every line [addToCart]
    stores does ([item.fruitId.toString() === itemData.fruitId] compares
    with the id as sent): it appends a new line for the fruit even when
    the cart already holds one for the same ObjectId. *)
Theorem addToCart_uppercase_id_appends (w : World) (u : string) (d : AddToCartDto)
    (oid : string) (fruit : Fruit.t) :
  castObjectId (dto_fruitId d) = Some oid ->
  oid <> dto_fruitId d ->
  fruits w oid = Some fruit ->
  Fruit.inStock fruit = true ->
  dto_quantity d <= Fruit.stockQuantity fruit ->
  lines_hold_objectids (formatCartResponse (carts w u)) ->
  let pf := calculatePaidAndFree (dto_quantity d) (Fruit.offerType fruit) in
  let cart' := with_totals (items (formatCartResponse (carts w u)) ++
                 [mkCartItem oid (Fruit.name fruit) (Fruit.price fruit)
                    (paid pf) (Fruit.offerType fruit) (free pf)]) in
  addToCart u d w = (set_carts w (upd (carts w) u (Some cart')), Ok cart').
Proof.
  intros Ho Hne Hf Hs Hq Hl.
  assert (Hi : findIndex (fun item => String.eqb (fruitId item) (dto_fruitId d))
                 (items (formatCartResponse (carts w u))) = None).
  { apply findIndex_none_of_forall. intros x Hx.
    destruct (String.eqb_spec (fruitId x) (dto_fruitId d)) as [E|]; [|reflexivity].
    exfalso. unfold lines_hold_objectids in Hl. rewrite Forall_forall in Hl.
    specialize (Hl x Hx). rewrite E, Ho in Hl. congruence. }
  rewrite (addToCart_success w u d oid fruit Ho Hf Hs Hq). cbv zeta.
  unfold formatCartResponse in Hi |- *. destruct (carts w u); rewrite Hi; reflexivity.
Qed.

Lemma addToCart_uppercase_id_appends_witness :
  fst (addToCart "u" (mkAddToCartDto apple_id_upper 3) shop_with_apples)
    = set_carts shop_with_apples (upd (carts shop_with_apples) "u"
        (Some (with_totals [apple_line;
                            mkCartItem apple_id "Apple" 0.125%float 2 BUY_1_GET_1_FREE 1]))).
Proof.
  rewrite (addToCart_uppercase_id_appends shop_with_apples "u"%string
             (mkAddToCartDto apple_id_upper 3) apple_id apple);
    [| vm_compute; reflexivity | discriminate | vm_compute; reflexivity | reflexivity
     | cbn; lia | vm_compute; repeat constructor].
  vm_compute. reflexivity.
Defined.

Ltac unfold_M := unfold addToCart, updateCartItem, removeFromCart, bind, get, put, ret, throw.

(** The cart operations write only the cart of the user they are called
    for: the catalog (no stock is reserved), the transactions, the auth
    service requests and every other user's cart are left as they were. *)
Theorem cart_op_frame (op : CartOp) (w : World) :
  fruits (run_op op w) = fruits w /\
  transactions (run_op op w) = transactions w /\
  auth_calls (run_op op w) = auth_calls w /\
  (forall u', u' <> op_user op -> carts (run_op op w) u' = carts w u').
Proof.
  assert (Hset : forall u c u', u' <> u ->
            carts (set_carts w (upd (carts w) u c)) u' = carts w u').
  { intros u c u' Hne. cbn. unfold upd.
    destruct (String.eqb_spec u u'); [congruence | reflexivity]. }
  destruct op as [u d | u f q | u f]; cbn [run_op op_user]; unfold_M;
    split_matches; cbn [fst]; repeat split; auto.
Qed.

Lemma NoDup_remove_at {A} (i : nat) (l : list A) : NoDup l -> NoDup (remove_at i l).
Proof.
  revert i. induction l as [|x l IH]; intros [|i] H; cbn; auto.
  - inversion H; assumption.
  - inversion H as [|? ? Hx Hl]; subst. constructor; [|apply IH; exact Hl].
    intros Hin. apply Hx. clear -Hin. revert i Hin.
    induction l as [|y l IH]; intros [|i] Hin; cbn in *; try contradiction.
    + right. exact Hin.
    + destruct Hin as [<-|Hin]; [left; reflexivity | right; exact (IH i Hin)].
Qed.

Lemma map_remove_at {A B} (f : A -> B) (i : nat) (l : list A) :
  map f (remove_at i l) = remove_at i (map f l).
Proof. revert i. induction l as [|x l IH]; intros [|i]; cbn; f_equal; auto. Qed.

Lemma map_update_at {A B} (g : A -> B) (f : A -> A) (i : nat) (l : list A) :
  (forall x, g (f x) = g x) -> map g (update_at i f l) = map g l.
Proof. intros Hf. revert i. induction l as [|x l IH]; intros [|i]; cbn; f_equal; auto. Qed.

Lemma findIndex_none {A} (p : A -> bool) (l : list A) :
  findIndex p l = None -> forall x, In x l -> p x = false.
Proof.
  induction l as [|y l IH]; intros H x Hin; cbn in *; [contradiction|].
  destruct (p y) eqn:Hy; [discriminate|].
  destruct (findIndex p l); [discriminate|]. destruct Hin as [<-|Hin]; auto.
Qed.

Lemma world_distinct_store (w : World) (u : string) (l : list CartItem) :
  world_distinct_lines w -> NoDup (map fruitId l) ->
  world_distinct_lines (set_carts w (upd (carts w) u (Some (with_totals l)))).
Proof.
  intros H Hl u' c. cbn. unfold upd. destruct (String.eqb u u').
  - intros [= <-]. exact Hl.
  - apply H.
Qed.

(** Every cart operation keeps a user's cart at one line per fruit, as long
    as every add sends its id as the ObjectId's own [toString()] (or an id
    that does not cast, which stores nothing): adding a fruit already in
    the cart then merges into its line, and updates and removals never
    duplicate a line. *)
Theorem cart_ops_keep_distinct_lines (ops : list CartOp) (w : World) :
  forallb add_uses_stored_id ops = true ->
  world_distinct_lines w -> world_distinct_lines (run_ops ops w).
Proof.
  revert w. induction ops as [|op ops IH]; intros w Hops H; cbn; [exact H|].
  cbn in Hops. apply andb_prop in Hops as [Hop Hops].
  apply (IH _ Hops). clear IH Hops.
  assert (Hcur : forall u, NoDup (map fruitId (items (match carts w u with
                                                       | Some c => c
                                                       | None => empty_cart end)))).
  { intros u. destruct (carts w u) as [c|] eqn:Hc; [exact (H u c Hc) | constructor]. }
  destruct op as [u d | u f q | u f]; cbn [run_op].
  - unfold addToCart, bind, get, put, ret, throw.
    cbn [add_uses_stored_id] in Hop.
    destruct (castObjectId (dto_fruitId d)) as [oid|]; [|exact H].
    apply String.eqb_eq in Hop. subst oid.
    destruct (fruits w (dto_fruitId d)) as [fruit|]; [|exact H].
    destruct (_ || _); [exact H|]. cbn [fst].
    apply world_distinct_store; [exact H|].
    specialize (Hcur u).
    destruct (findIndex _ _) as [i|] eqn:Hi.
    + rewrite map_update_at; [exact Hcur | reflexivity].
    + rewrite map_app. apply NoDup_app; [exact Hcur | repeat constructor; auto |].
      intros a Ha [Ha' | []]. cbn in Ha'. subst a.
      apply in_map_iff in Ha as [x [Hx Hin]].
      pose proof (findIndex_none _ _ Hi x Hin) as Hp. cbn in Hp.
      rewrite Hx, String.eqb_refl in Hp. discriminate.
  - unfold updateCartItem, bind, get, put, ret.
    destruct (carts w u) as [c|] eqn:Hc; [|exact H].
    destruct (findIndex _ _) as [i|]; [|exact H]. cbn [fst].
    apply world_distinct_store; [exact H|]. pose proof (H u c Hc) as Hd.
    destruct (q <=? 0).
    + rewrite map_remove_at. apply NoDup_remove_at. exact Hd.
    + rewrite map_update_at; [exact Hd | reflexivity].
  - unfold removeFromCart, bind, get, put, ret.
    destruct (carts w u) as [c|] eqn:Hc; [|exact H].
    destruct (findIndex _ _) as [i|]; [|exact H]. cbn [fst].
    apply world_distinct_store; [exact H|].
    rewrite map_remove_at. apply NoDup_remove_at. exact (H u c Hc).
Qed.

Lemma cart_ops_keep_distinct_lines_witness :
  forallb add_uses_stored_id
    [OpAdd "u" (mkAddToCartDto apple_id 2); OpAdd "u" (mkAddToCartDto orange_id 6);
     OpAdd "u" (mkAddToCartDto apple_id 1); OpRemove "u" orange_id] = true /\
  world_distinct_lines shop /\
  world_distinct_lines
    (run_ops [OpAdd "u" (mkAddToCartDto apple_id 2); OpAdd "u" (mkAddToCartDto orange_id 6);
              OpAdd "u" (mkAddToCartDto apple_id 1); OpRemove "u" orange_id] shop).
Proof.
  assert (H0 : world_distinct_lines shop) by (intros u c Hc; discriminate Hc).
  split; [vm_compute; reflexivity|].
  split; [exact H0|].
  apply (cart_ops_keep_distinct_lines _ shop); [vm_compute; reflexivity | exact H0].
Defined.

Lemma ascii_lower_hex (c : ascii) : is_hex_digit (ascii_lower c) = is_hex_digit c.
Proof. destruct c as [[] [] [] [] [] [] [] []]; reflexivity. Qed.

Lemma ascii_lower_idem (c : ascii) : ascii_lower (ascii_lower c) = ascii_lower c.
Proof. destruct c as [[] [] [] [] [] [] [] []]; reflexivity. Qed.

Lemma toLowerCase_length (s : string) : String.length (toLowerCase s) = String.length s.
Proof. induction s as [|c s IH]; cbn; congruence. Qed.

Lemma toLowerCase_hex (s : string) :
  string_forallb is_hex_digit (toLowerCase s) = string_forallb is_hex_digit s.
Proof. induction s as [|c s IH]; cbn; [reflexivity|]. rewrite ascii_lower_hex, IH. reflexivity. Qed.

Lemma toLowerCase_idem (s : string) : toLowerCase (toLowerCase s) = toLowerCase s.
Proof. induction s as [|c s IH]; cbn; [reflexivity|]. rewrite ascii_lower_idem, IH. reflexivity. Qed.

(** The ObjectId an id casts to casts to itself. *)
Lemma castObjectId_stored (id oid : string) :
  castObjectId id = Some oid -> castObjectId oid = Some oid.
Proof.
  unfold castObjectId. destruct (_ && _) eqn:E; [|discriminate]. intros [= <-].
  rewrite toLowerCase_length, toLowerCase_hex, E, toLowerCase_idem. reflexivity.
Qed.

Lemma Forall_update_at {A} (P : A -> Prop) (f : A -> A) (i : nat) (l : list A) :
  (forall x, P x -> P (f x)) -> Forall P l -> Forall P (update_at i f l).
Proof.
  intros Hf. revert i. induction l as [|x l IH]; intros [|i] H; cbn; auto;
    inversion H; subst; constructor; auto.
Qed.

Lemma Forall_remove_at {A} (P : A -> Prop) (i : nat) (l : list A) :
  Forall P l -> Forall P (remove_at i l).
Proof.
  revert i. induction l as [|x l IH]; intros [|i] H; cbn; auto;
    inversion H; subst; auto.
Qed.

Lemma world_objectids_store (w : World) (u : string) (l : list CartItem) :
  world_lines_hold_objectids w ->
  Forall (fun item => castObjectId (fruitId item) = Some (fruitId item)) l ->
  world_lines_hold_objectids (set_carts w (upd (carts w) u (Some (with_totals l)))).
Proof.
  intros H Hl u' c. cbn. unfold upd. destruct (String.eqb u u').
  - intros [= <-]. exact Hl.
  - apply H.
Qed.

(** Whatever ids the requests send, every line the cart operations store
    holds an ObjectId string: the lower-case [toString()] of the ObjectId
    its id cast to. *)
Theorem cart_ops_store_objectids (ops : list CartOp) (w : World) :
  world_lines_hold_objectids w -> world_lines_hold_objectids (run_ops ops w).
Proof.
  revert w. induction ops as [|op ops IH]; intros w H; cbn; [exact H|].
  apply IH. clear IH.
  assert (Hcur : forall u, lines_hold_objectids (match carts w u with
                                                 | Some c => c
                                                 | None => empty_cart end)).
  { intros u. destruct (carts w u) as [c|] eqn:Hc; [exact (H u c Hc) | constructor]. }
  destruct op as [u d | u f q | u f]; cbn [run_op].
  - unfold addToCart, bind, get, put, ret, throw.
    destruct (castObjectId (dto_fruitId d)) as [oid|] eqn:Ho; [|exact H].
    destruct (fruits w oid) as [fruit|]; [|exact H].
    destruct (_ || _); [exact H|]. cbn [fst].
    apply world_objectids_store; [exact H|].
    specialize (Hcur u). unfold lines_hold_objectids in Hcur.
    destruct (findIndex _ _) as [i|].
    + apply Forall_update_at; [intros x Hx; exact Hx | exact Hcur].
    + apply Forall_app. split; [exact Hcur|].
      constructor; [cbn; exact (castObjectId_stored _ _ Ho) | constructor].
  - unfold updateCartItem, bind, get, put, ret.
    destruct (carts w u) as [c|] eqn:Hc; [|exact H].
    destruct (findIndex _ _) as [i|]; [|exact H]. cbn [fst].
    apply world_objectids_store; [exact H|]. pose proof (H u c Hc) as Hd.
    destruct (q <=? 0).
    + apply Forall_remove_at. exact Hd.
    + apply Forall_update_at; [intros x Hx; exact Hx | exact Hd].
  - unfold removeFromCart, bind, get, put, ret.
    destruct (carts w u) as [c|] eqn:Hc; [|exact H].
    destruct (findIndex _ _) as [i|]; [|exact H]. cbn [fst].
    apply world_objectids_store; [exact H|].
    apply Forall_remove_at. exact (H u c Hc).
Qed.

Lemma cart_ops_store_objectids_witness :
  world_lines_hold_objectids shop /\
  world_lines_hold_objectids
    (run_ops [OpAdd "u" (mkAddToCartDto apple_id_upper 2); OpAdd "u" (mkAddToCartDto "pear" 1);
              OpAdd "u" (mkAddToCartDto orange_id 6)] shop).
Proof.
  assert (H0 : world_lines_hold_objectids shop) by (intros u c Hc; discriminate Hc).
  split; [exact H0 | exact (cart_ops_store_objectids _ shop H0)].
Defined.

Lemma findIndex_none_iff {A} (p : A -> bool) (l : list A) :
  findIndex p l = None <-> existsb p l = false.
Proof.
  induction l as [|x l IH]; cbn; [split; reflexivity|].
  destruct (p x); cbn; [split; discriminate|].
  destruct (findIndex p l); rewrite <- IH; split; congruence.
Qed.

Lemma filter_keep_all {A} (p : A -> bool) (l : list A) :
  (forall x, In x l -> p x = true) -> filter p l = l.
Proof.
  induction l as [|x l IH]; intros H; cbn; [reflexivity|].
  rewrite (H x (or_introl eq_refl)). f_equal. apply IH. intros y Hy. apply H. right. exact Hy.
Qed.

Lemma remove_at_first_is_filter (f : string) (l : list CartItem) (i : nat) :
  NoDup (map fruitId l) ->
  findIndex (fun item => String.eqb (fruitId item) f) l = Some i ->
  remove_at i l = filter (fun item => negb (String.eqb (fruitId item) f)) l.
Proof.
  revert i. induction l as [|x l IH]; intros i Hd Hi; cbn in Hi; [discriminate|].
  inversion Hd as [|? ? Hx Hl]; subst.
  cbn [filter]. destruct (String.eqb_spec (fruitId x) f) as [Hf|Hf].
  - injection Hi as <-. cbn. symmetry. apply filter_keep_all.
    intros y Hy. destruct (String.eqb_spec (fruitId y) f); [|reflexivity].
    exfalso. apply Hx. rewrite Hf, <- e. apply in_map. exact Hy.
  - destruct (findIndex _ l) as [j|] eqn:Hj; [|discriminate]. injection Hi as <-.
    cbn. f_equal. apply IH; [exact Hl | reflexivity].
Qed.

(** [removeFromCart] on a cart with one line per fruit (what the cart
    operations keep) removes exactly the lines of the given fruit, keeps
    the other lines in order and recomputes the totals; when the cart has
    no line for the fruit, or the user has no cart, it returns [null] and
    writes nothing. *)
Theorem removeFromCart_drops_fruit :
  (forall (w : World) (u f : string),
     carts w u = None -> removeFromCart u f w = (w, Ok None)) /\
  (forall (w : World) (u f : string) (cart : Cart),
     carts w u = Some cart -> distinct_lines cart ->
     removeFromCart u f w =
       if existsb (fun item => String.eqb (fruitId item) f) (items cart)
       then let cart' := with_totals
                           (filter (fun item => negb (String.eqb (fruitId item) f)) (items cart)) in
            (set_carts w (upd (carts w) u (Some cart')), Ok (Some cart'))
       else (w, Ok None)).
Proof.
  split.
  - intros w u f Hc. unfold removeFromCart, bind, get, ret. rewrite Hc. reflexivity.
  - intros w u f cart Hc Hd. unfold removeFromCart, bind, get, put, ret. rewrite Hc.
    destruct (findIndex _ _) as [i|] eqn:Hi.
    + destruct (existsb _ _) eqn:He.
      * rewrite (remove_at_first_is_filter f _ i Hd Hi). reflexivity.
      * apply findIndex_none_iff in He. congruence.
    + apply findIndex_none_iff in Hi. rewrite Hi. reflexivity.
Qed.

Lemma removeFromCart_drops_fruit_witness :
  removeFromCart "v" apple_id shop_with_apples = (shop_with_apples, Ok None) /\
  fst (removeFromCart "u" apple_id shop_with_apples) =
    set_carts shop_with_apples (upd (carts shop_with_apples) "u" (Some (with_totals []))).
Proof.
  split.
  - apply (proj1 removeFromCart_drops_fruit). reflexivity.
  - rewrite ((proj2 removeFromCart_drops_fruit) shop_with_apples "u"%string apple_id
               apple_cart); [reflexivity | vm_compute; reflexivity |].
    unfold distinct_lines. cbn. repeat constructor. intros [].
Defined.

(** [updateCartItem] with a quantity [<= 0] does exactly what
    [removeFromCart] does: the same result and the same write. *)
Theorem updateCartItem_nonpositive_is_remove (w : World) (u f : string) (q : Z) :
  q <= 0 -> updateCartItem u f q w = removeFromCart u f w.
Proof.
  intros Hq. unfold updateCartItem, removeFromCart, bind, get, put, ret.
  destruct (carts w u); [|reflexivity]. destruct (findIndex _ _); [|reflexivity].
  apply Z.leb_le in Hq. rewrite Hq. reflexivity.
Qed.

Lemma updateCartItem_nonpositive_is_remove_witness :
  0 <= 0 /\ updateCartItem "u" apple_id 0 shop_with_apples = removeFromCart "u" apple_id shop_with_apples.
Proof. split; [lia | apply updateCartItem_nonpositive_is_remove; lia]. Defined.

(** Every successful cart mutation stores the cart it returns: a [getCart]
    right after it reads back that same cart and writes nothing. *)
Theorem cart_mutation_then_getCart :
  (forall (w w' : World) (u : string) (d : AddToCartDto) (c : Cart),
     addToCart u d w = (w', Ok c) -> getCart u w' = (w', Ok c)) /\
  (forall (w w' : World) (u f : string) (q : Z) (c : Cart),
     updateCartItem u f q w = (w', Ok (Some c)) -> getCart u w' = (w', Ok c)) /\
  (forall (w w' : World) (u f : string) (c : Cart),
     removeFromCart u f w = (w', Ok (Some c)) -> getCart u w' = (w', Ok c)).
Proof.
  split; [|split]; intros *; unfold_M; split_matches; intros H; try discriminate H;
    injection H as <- <-; unfold getCart, bind, get, ret, formatCartResponse; cbn;
    unfold upd; rewrite String.eqb_refl; reflexivity.
Qed.

Lemma cart_mutation_then_getCart_witness :
  getCart "u" shop_with_apples = (shop_with_apples, Ok apple_cart) /\
  getCart "u" (fst (removeFromCart "u" apple_id shop_with_apples))
    = (fst (removeFromCart "u" apple_id shop_with_apples), Ok (with_totals [])).
Proof.
  split.
  - apply (proj1 cart_mutation_then_getCart shop _ "u"%string (mkAddToCartDto apple_id 2)).
    vm_compute. reflexivity.
  - apply (proj2 (proj2 cart_mutation_then_getCart) shop_with_apples _ "u"%string apple_id).
    vm_compute. reflexivity.
Defined.

(** [clearCart] deletes the user's cart and answers the empty cart (the
    endpoint answers 200 "Cart cleared successfully"): a following
    [getCart] reads the empty cart and a following checkout fails with
    "Cart is empty"; the other users' carts, the catalog and the
    transactions are left as they were. *)
Theorem clearCart_empties (profileReply : string + float) (deductReply notifyReply : option string)
    (stockUpdateFails : string -> bool) (w : World) (u : string) (data : CheckoutDto) :
  let w' := fst (clearCart u w) in
  clearCart u w = (w', Ok empty_cart) /\
  clearCartController u w
    = (w', Ok (mkResponse 200 true "Cart cleared successfully" (Some empty_cart))) /\
  getCart u w' = (w', Ok empty_cart) /\
  checkout profileReply deductReply notifyReply stockUpdateFails u data w'
    = (w', Throw "Cart is empty") /\
  (forall u', u' <> u -> carts w' u' = carts w u') /\
  fruits w' = fruits w /\ transactions w' = transactions w.
Proof.
  cbv zeta. unfold clearCartController, catch, clearCart, getCart, checkout, bind, get, put, ret,
    throw. cbn.
  unfold upd. rewrite String.eqb_refl. repeat split.
  intros u' Hne. destruct (String.eqb_spec u u'); [congruence | reflexivity].
Qed.

Lemma clearCart_empties_witness :
  carts (fst (clearCart "u" shop_with_apples)) "v" = carts shop_with_apples "v".
Proof.
  destruct (clearCart_empties (inr 0%float) None None (fun _ => false) shop_with_apples
              "u"%string (mkCheckoutDto "CASH" None)) as [_ [_ [_ [_ [H _]]]]].
  apply H. discriminate.
Defined.




Lemma updateStocks_ok (s : string -> bool) (l : list CartItem) (w : World) :
  snd (updateStocks s l w) = Ok tt /\ auth_calls (fst (updateStocks s l w)) = auth_calls w.
Proof.
  revert w. induction l as [|item l IH]; intros w; cbn; [auto|].
  unfold bind, catch, decrementStock, bind, get, put, ret, throw.
  destruct (s (fruitId item)); [apply IH|].
  destruct (fruits w (fruitId item)); [|apply IH].
  match goal with |- context [updateStocks s l ?w1] => destruct (IH w1) as [H1 H2] end.
  split; [exact H1 | rewrite H2; reflexivity].
Qed.

Lemma updateStocks_stock (s : string -> bool) (l : list CartItem) (w : World) (id : string) :
  (forall x, s x = false) ->
  fruits (fst (updateStocks s l w)) id =
    match fruits w id with
    | None => None
    | Some f => Some (Fruit.mk (Fruit.name f) (Fruit.price f) (Fruit.offerType f)
                        (Fruit.inStock f) (Fruit.stockQuantity f - units_of id l))
    end.
Proof.
  intros Hs. revert w. induction l as [|item l IH]; intros w; cbn.
  - destruct (fruits w id) as [[]|]; cbn; [rewrite Z.sub_0_r|]; reflexivity.
  - unfold bind, catch, decrementStock, bind, get, put, ret, throw. rewrite Hs.
    destruct (fruits w (fruitId item)) as [g|] eqn:Hg; rewrite IH; cbn [fruits set_fruits].
    + unfold upd. destruct (String.eqb_spec (fruitId item) id) as [<-|Hne].
      * rewrite Hg. cbn. do 2 f_equal; try lia.
      * destruct (fruits w id); [|reflexivity]. do 2 f_equal; try lia.
    + destruct (String.eqb_spec (fruitId item) id) as [<-|Hne].
      * rewrite Hg. reflexivity.
      * destruct (fruits w id); [|reflexivity]. do 2 f_equal; try lia.
Qed.

Lemma notify_ok (n : option string) (a : float) (w : World) :
  catch (notifyOrder n a) (fun _ => ret tt) w
    = (set_auth_calls w (auth_calls w ++ [NotifyOrder a]), Ok tt).
Proof. unfold catch, notifyOrder, auth_request, ret. destruct n; reflexivity. Qed.

Lemma payWithWallet_fruits (p : string + float) (d : option string) (a : float) (w : World) :
  fruits (fst (payWithWallet p d a w)) = fruits w.
Proof.
  unfold payWithWallet, getWalletBalance, deductBalance, auth_request, catch, bind, throw.
  destruct p as [msg|b]; cbn; [reflexivity|].
  destruct (PrimFloat.ltb b a); cbn; [reflexivity|]. destruct d; reflexivity.
Qed.

(** [checkout] of a non-empty cart with an accepted payment method: the
    payment step, then the transaction, the stock updates, the notification
    and the deletion of the cart. *)
Lemma checkout_valid (p : string + float) (d n : option string) (s : string -> bool)
    (w : World) (u : string) (data : CheckoutDto) (cart : Cart) :
  carts w u = Some cart -> items cart <> [] ->
  existsb (String.eqb (toUpperCase (cd_paymentMethod data))) PaymentMethod_values = true ->
  checkout p d n s u data w =
    match (if String.eqb (toUpperCase (cd_paymentMethod data)) "WALLET"
           then payWithWallet p d (finalPrice (with_totals (items cart))) else ret tt) w with
    | (w1, Ok _) =>
        let tx := checkout_transaction u data (items cart) in
        let w2 := fst (updateStocks s (items cart)
                         (set_transactions w1 (transactions w1 ++ [tx]))) in
        let w3 := fst (catch (notifyOrder n (finalPrice (with_totals (items cart))))
                         (fun _ => ret tt) w2) in
        (set_carts w3 (upd (carts w3) u None), Ok tx)
    | (w1, Throw m) => (w1, Throw m)
    end.
Proof.
  intros Hc Hne Hv. unfold checkout, checkout_transaction, bind, get, put, throw.
  cbv beta iota zeta. rewrite Hc.
  destruct (items cart) as [|x l] eqn:Hi; [congruence|]. cbv beta iota.
  change (ret (with_totals (x :: l)) w) with (w, @Ok Cart (with_totals (x :: l))).
  cbv beta iota. cbn [with_totals items]. rewrite Hv. cbv beta iota delta [negb].
  match goal with
  | |- context [(if ?b then ?m1 else ?m2) w] =>
      destruct ((if b then m1 else m2) w) as [w1 [[]|m]]; [|reflexivity]
  end.
  cbv beta iota.
  match goal with
  | |- context [updateStocks s ?l0 ?W] =>
      destruct (updateStocks_ok s l0 W) as [Hok _]; destruct (updateStocks s l0 W) as [w2 r2]
  end.
  cbn in Hok. subst r2. cbv beta iota. cbn [fst]. rewrite !notify_ok. reflexivity.
Qed.

Ltac destruct_pay w w1 m E :=
  match goal with
  | |- context [(if ?b then ?m1 else ?m2) w] =>
      destruct ((if b then m1 else m2) w) as [w1 [[]|m]] eqn:E
  end.

Lemma ret_apply {A} (a : A) (w : World) : ret a w = (w, Ok a).
Proof. reflexivity. Qed.

Lemma existsb_method (pm : string) :
  existsb (String.eqb pm) PaymentMethod_values = true <-> In pm PaymentMethod_values.
Proof.
  rewrite existsb_exists. split.
  - intros [y [Hy He]]. apply String.eqb_eq in He. subst. exact Hy.
  - intros H. exists pm. split; [exact H | apply String.eqb_refl].
Qed.

Lemma checkout_no_lines (p : string + float) (d n : option string) (s : string -> bool)
    (w : World) (u : string) (data : CheckoutDto) :
  (carts w u = None \/ exists cart, carts w u = Some cart /\ items cart = []) ->
  checkout p d n s u data w = (w, Throw "Cart is empty").
Proof.
  intros Hc. unfold checkout, bind, get, throw.
  destruct Hc as [Hc | [cart [Hc Hi]]]; rewrite Hc; [reflexivity|]. rewrite Hi. reflexivity.
Qed.

Lemma checkout_bad_method (p : string + float) (d n : option string) (s : string -> bool)
    (w : World) (u : string) (data : CheckoutDto) (cart : Cart) :
  carts w u = Some cart -> items cart <> [] ->
  existsb (String.eqb (toUpperCase (cd_paymentMethod data))) PaymentMethod_values = false ->
  checkout p d n s u data w = (w, Throw "Invalid payment method").
Proof.
  intros Hc Hne Hv. unfold checkout, bind, get, throw. rewrite Hc.
  destruct (items cart) as [|x l]; [congruence|]. cbn [with_totals items].
  rewrite Hv. reflexivity.
Qed.

(** The three ways a checkout can go: no lines ([checkout_no_lines]), a
    rejected payment method ([checkout_bad_method]), or the path of
    [checkout_valid]. *)
Lemma checkout_cases (w : World) (u : string) (data : CheckoutDto) :
  (carts w u = None \/ exists cart, carts w u = Some cart /\ items cart = []) \/
  (exists cart, carts w u = Some cart /\ items cart <> [] /\
     existsb (String.eqb (toUpperCase (cd_paymentMethod data))) PaymentMethod_values = false) \/
  (exists cart, carts w u = Some cart /\ items cart <> [] /\
     existsb (String.eqb (toUpperCase (cd_paymentMethod data))) PaymentMethod_values = true).
Proof.
  destruct (carts w u) as [cart|] eqn:Hc; [|left; left; reflexivity].
  destruct (items cart) as [|x l] eqn:Hi; [left; right; exists cart; auto|].
  right. destruct (existsb _ _) eqn:Hv; [right | left]; exists cart;
    (split; [reflexivity | split; [congruence | reflexivity]]).
Qed.


Lemma checkout_carts (p : string + float) (d n : option string) (s : string -> bool)
    (w : World) (u : string) (data : CheckoutDto) :
  carts (fst (checkout p d n s u data w)) = carts w \/
  carts (fst (checkout p d n s u data w)) = upd (carts w) u None.
Proof.
  destruct (checkout_cases w u data) as [H0 | [[cart [Hc [Hne Hv]]] | [cart [Hc [Hne Hv]]]]];
    [rewrite (checkout_no_lines p d n s w u data H0); left; reflexivity
    | rewrite (checkout_bad_method p d n s w u data cart Hc Hne Hv); left; reflexivity |].
  rewrite (checkout_valid p d n s w u data cart Hc Hne Hv).
  destruct_pay w w1 m E.
  - right. cbv zeta. cbn [fst set_carts carts]. rewrite notify_ok. cbn [fst set_auth_calls carts].
    destruct (updateStocks_frame s (items cart) (set_transactions w1 (transactions w1 ++
      [checkout_transaction u data (items cart)]))) as [F _].
    rewrite F. cbn [set_transactions carts].
    destruct (String.eqb (toUpperCase (cd_paymentMethod data)) "WALLET").
    + destruct (payWithWallet_frame p d (finalPrice (with_totals (items cart))) w) as [G _].
      rewrite E in G. cbn in G. rewrite G. reflexivity.
    + rewrite ret_apply in E. injection E as <-. reflexivity.
  - left. cbn [fst]. destruct (String.eqb (toUpperCase (cd_paymentMethod data)) "WALLET").
    + destruct (payWithWallet_frame p d (finalPrice (with_totals (items cart))) w) as [G _].
      rewrite E in G. exact G.
    + rewrite ret_apply in E. discriminate E.
Qed.

(** [checkout] of a non-empty cart with a payment method that is not one of
    [PaymentMethod]'s values (after [toUpperCase]) fails with "Invalid
    payment method", answered with 400, before any request or write. *)
Theorem checkout_invalid_payment_method (p : string + float) (d n : option string)
    (s : string -> bool) (w : World) (u : string) (data : CheckoutDto) (cart : Cart) :
  carts w u = Some cart -> items cart <> [] ->
  ~ In (toUpperCase (cd_paymentMethod data)) PaymentMethod_values ->
  checkout p d n s u data w = (w, Throw "Invalid payment method") /\
  checkoutController_status "Invalid payment method" = 400.
Proof.
  intros Hc Hne Hm. split; [|reflexivity].
  destruct (existsb (String.eqb (toUpperCase (cd_paymentMethod data))) PaymentMethod_values)
    eqn:Hv; [apply existsb_method in Hv; contradiction|].
  exact (checkout_bad_method p d n s w u data cart Hc Hne Hv).
Qed.

Lemma checkout_invalid_payment_method_witness :
  checkout (inr 0%float) None None (fun _ => false) "u" (mkCheckoutDto "bitcoin" None)
      shop_with_oranges
    = (shop_with_oranges, Throw "Invalid payment method") /\
  checkoutController_status "Invalid payment method" = 400.
Proof.
  apply (checkout_invalid_payment_method _ _ _ _ _ _ _ orange_cart).
  - vm_compute. reflexivity.
  - discriminate.
  - cbn. intuition discriminate.
Defined.





(** A WALLET checkout of a non-empty cart whose profile request fails, or
    whose deduction fails after a sufficient balance was reported, fails
    with "Wallet payment failed: " followed by the error's message; no
    transaction is created and no cart or stock is changed. *)
Theorem checkout_wallet_request_error (p : string + float) (d n : option string)
    (s : string -> bool) (w : World) (u : string) (data : CheckoutDto) (cart : Cart)
    (m : string) (calls : list AuthCall) :
  carts w u = Some cart -> items cart <> [] ->
  toUpperCase (cd_paymentMethod data) = "WALLET"%string ->
  (p = inl m /\ calls = [GetProfile]) \/
  (exists b, p = inr b /\ PrimFloat.ltb b (finalPrice (with_totals (items cart))) = false /\
             d = Some m /\
             calls = [GetProfile; DeductBalance (finalPrice (with_totals (items cart)))]) ->
  exists w',
    checkout p d n s u data w = (w', Throw ("Wallet payment failed: " ++ m)%string) /\
    auth_calls w' = auth_calls w ++ calls /\
    carts w' = carts w /\ transactions w' = transactions w /\ fruits w' = fruits w.
Proof.
  intros Hc Hne Hm Hp.
  assert (Hv : existsb (String.eqb (toUpperCase (cd_paymentMethod data)))
                 PaymentMethod_values = true) by (rewrite Hm; reflexivity).
  rewrite (checkout_valid p d n s w u data cart Hc Hne Hv), Hm.
  cbn [String.eqb Ascii.eqb Bool.eqb].
  unfold payWithWallet, getWalletBalance, deductBalance, auth_request, catch, bind, throw.
  destruct Hp as [[-> ->] | [b [-> [Hb [-> ->]]]]].
  - eexists. split; [reflexivity|]. cbn. auto.
  - cbv beta iota. rewrite Hb. eexists. split; [reflexivity|]. cbn. rewrite <- app_assoc. auto.
Qed.

Lemma checkout_wallet_request_error_witness :
  exists w',
    checkout (inr 100%float) (Some "Request failed"%string) None (fun _ => false) "u"
      (mkCheckoutDto "WALLET" None) shop_with_oranges
      = (w', Throw ("Wallet payment failed: " ++ "Request failed")%string) /\
    auth_calls w' = auth_calls shop_with_oranges ++
      [GetProfile; DeductBalance (finalPrice (with_totals (items orange_cart)))] /\
    carts w' = carts shop_with_oranges /\ transactions w' = transactions shop_with_oranges /\
    fruits w' = fruits shop_with_oranges.
Proof.
  apply (checkout_wallet_request_error _ _ _ _ _ _ _ orange_cart).
  - vm_compute. reflexivity.
  - discriminate.
  - reflexivity.
  - right. exists 100%float. split; [reflexivity|]. split; [vm_compute; reflexivity|].
    split; reflexivity.
Defined.

(** A failed checkout writes nothing to the database: the carts, the
    transactions and the catalog's stock are as they were (only requests to
    the auth service may have been sent).  Every error is thrown before the
    transaction is saved; the database calls after it, which the model takes
    to succeed, are not among them. *)
Theorem checkout_failure_writes_nothing (p : string + float) (d n : option string)
    (s : string -> bool) (w w' : World) (u : string) (data : CheckoutDto) (m : string) :
  checkout p d n s u data w = (w', Throw m) ->
  carts w' = carts w /\ transactions w' = transactions w /\ fruits w' = fruits w.
Proof.
  intros H.
  destruct (checkout_cases w u data) as [H0 | [[cart [Hc [Hne Hv]]] | [cart [Hc [Hne Hv]]]]];
    [rewrite (checkout_no_lines p d n s w u data H0) in H; injection H as <- _; auto
    | rewrite (checkout_bad_method p d n s w u data cart Hc Hne Hv) in H;
      injection H as <- _; auto |].
  rewrite (checkout_valid p d n s w u data cart Hc Hne Hv) in H.
  destruct (String.eqb (toUpperCase (cd_paymentMethod data)) "WALLET").
  - destruct (payWithWallet p d (finalPrice (with_totals (items cart))) w)
      as [w1 [[]|m1]] eqn:E; [discriminate H|]. injection H as <- _.
    destruct (payWithWallet_frame p d (finalPrice (with_totals (items cart))) w) as [F1 F2].
    pose proof (payWithWallet_fruits p d (finalPrice (with_totals (items cart))) w) as F3.
    rewrite E in F1, F2, F3. auto.
  - rewrite ret_apply in H. discriminate H.
Qed.

Lemma checkout_failure_writes_nothing_witness :
  carts (fst (checkout (inr 10%float) None None (fun _ => false) "u"
                 (mkCheckoutDto "WALLET" None) shop_with_oranges)) = carts shop_with_oranges.
Proof.
  apply (checkout_failure_writes_nothing (inr 10%float) None None (fun _ => false)
           shop_with_oranges _ "u"%string (mkCheckoutDto "WALLET" None)
           "Wallet payment failed: Insufficient wallet balance").
  vm_compute. reflexivity.
Defined.

(** What happens after the payment cannot change a checkout's outcome: the
    result, the carts and the transactions are the same whatever the order
    notification and the stock updates answer. *)
Theorem checkout_outcome_ignores_notify_and_stock (p : string + float)
    (d n n' : option string) (s s' : string -> bool) (w : World) (u : string)
    (data : CheckoutDto) :
  snd (checkout p d n s u data w) = snd (checkout p d n' s' u data w) /\
  carts (fst (checkout p d n s u data w)) = carts (fst (checkout p d n' s' u data w)) /\
  transactions (fst (checkout p d n s u data w))
    = transactions (fst (checkout p d n' s' u data w)).
Proof.
  destruct (checkout_cases w u data) as [H0 | [[cart [Hc [Hne Hv]]] | [cart [Hc [Hne Hv]]]]].
  - rewrite (checkout_no_lines p d n s w u data H0), (checkout_no_lines p d n' s' w u data H0).
    auto.
  - rewrite (checkout_bad_method p d n s w u data cart Hc Hne Hv),
      (checkout_bad_method p d n' s' w u data cart Hc Hne Hv). auto.
  - rewrite (checkout_valid p d n s w u data cart Hc Hne Hv),
            (checkout_valid p d n' s' w u data cart Hc Hne Hv).
    destruct_pay w w1 m E; [|auto].
    cbv zeta. cbn [fst snd]. rewrite !notify_ok. cbn [fst set_carts set_auth_calls carts transactions].
    destruct (updateStocks_frame s (items cart) (set_transactions w1 (transactions w1 ++
      [checkout_transaction u data (items cart)]))) as [F1 F2].
    destruct (updateStocks_frame s' (items cart) (set_transactions w1 (transactions w1 ++
      [checkout_transaction u data (items cart)]))) as [G1 G2].
    rewrite F1, F2, G1, G2. auto.
Qed.

(** A successful checkout in which no stock update fails lowers the stock
    of every fruit by the units (paid + free) the cart's lines hold of it,
    keeps the fruit's other fields, and creates no fruit; the stock is not
    checked again, so it may go below zero. *)
Theorem checkout_decrements_stock (p : string + float) (d n : option string)
    (w w' : World) (u : string) (data : CheckoutDto) (tx : Transaction.t) (id : string) :
  checkout p d n (fun _ => false) u data w = (w', Ok tx) ->
  exists cart,
    carts w u = Some cart /\
    fruits w' id =
      match fruits w id with
      | None => None
      | Some f => Some (Fruit.mk (Fruit.name f) (Fruit.price f) (Fruit.offerType f)
                          (Fruit.inStock f) (Fruit.stockQuantity f - units_of id (items cart)))
      end.
Proof.
  intros H.
  destruct (checkout_cases w u data) as [H0 | [[cart [Hc [Hne Hv]]] | [cart [Hc [Hne Hv]]]]];
    [rewrite (checkout_no_lines p d n _ w u data H0) in H; discriminate H
    | rewrite (checkout_bad_method p d n _ w u data cart Hc Hne Hv) in H; discriminate H |].
  exists cart. split; [exact Hc|].
  rewrite (checkout_valid p d n _ w u data cart Hc Hne Hv) in H.
  destruct (String.eqb (toUpperCase (cd_paymentMethod data)) "WALLET").
  - destruct (payWithWallet p d (finalPrice (with_totals (items cart))) w)
      as [w1 [[]|m1]] eqn:E; [|discriminate H]. injection H as <- _.
    rewrite notify_ok. cbn [fst set_carts set_auth_calls fruits].
    rewrite updateStocks_stock by reflexivity. cbn [set_transactions fruits].
    pose proof (payWithWallet_fruits p d (finalPrice (with_totals (items cart))) w) as F.
    rewrite E in F. cbn [fst] in F. rewrite F. reflexivity.
  - rewrite ret_apply in H. injection H as <- _.
    rewrite notify_ok. cbn [fst set_carts set_auth_calls fruits].
    rewrite updateStocks_stock by reflexivity. reflexivity.
Qed.

Lemma checkout_decrements_stock_witness :
  exists cart,
    carts shop_with_oranges "u" = Some cart /\
    fruits (fst (checkout (inl "down"%string) None None (fun _ => false) "u"
                   (mkCheckoutDto "CASH" None) shop_with_oranges)) orange_id =
      match fruits shop_with_oranges orange_id with
      | None => None
      | Some f => Some (Fruit.mk (Fruit.name f) (Fruit.price f) (Fruit.offerType f)
                          (Fruit.inStock f) (Fruit.stockQuantity f - units_of orange_id (items cart)))
      end.
Proof.
  apply (checkout_decrements_stock (inl "down"%string) None None shop_with_oranges _ "u"%string
           (mkCheckoutDto "CASH" None)
           (checkout_transaction "u" (mkCheckoutDto "CASH" None) (items orange_cart))).
  vm_compute. reflexivity.
Defined.

(** After a successful checkout, the user's transaction history (newest
    first) starts with the new transaction, followed by the history they had;
    every other user's history is unchanged. *)
Theorem checkout_then_history (p : string + float) (d n : option string) (s : string -> bool)
    (w w' : World) (u : string) (data : CheckoutDto) (tx : Transaction.t) :
  checkout p d n s u data w = (w', Ok tx) ->
  forall (u' : string) (h : list Transaction.t),
    getTransactionHistory u' w = (w, Ok h) ->
    getTransactionHistory u' w' = (w', Ok (if String.eqb u u' then tx :: h else h)).
Proof.
  intros H u' h Hh.
  destruct (checkout_success p d n s w w' u data tx H) as [cart [_ [_ [Htx [Ht _]]]]].
  unfold getTransactionHistory, bind, get, ret in *. injection Hh as <-.
  rewrite Ht, filter_app. subst tx. cbn [filter Transaction.userId].
  destruct (String.eqb u u'); [rewrite rev_app_distr | rewrite app_nil_r]; reflexivity.
Qed.

Lemma checkout_then_history_witness :
  getTransactionHistory "u"
    (fst (checkout (inr 100%float) None None (fun _ => false) "u" (mkCheckoutDto "CASH" None)
            shop_with_oranges))
  = (fst (checkout (inr 100%float) None None (fun _ => false) "u" (mkCheckoutDto "CASH" None)
            shop_with_oranges),
     Ok [checkout_transaction "u" (mkCheckoutDto "CASH" None) (items orange_cart)]).
Proof.
  apply (checkout_then_history (inr 100%float) None None (fun _ => false) shop_with_oranges
           _ "u"%string (mkCheckoutDto "CASH" None)
           (checkout_transaction "u" (mkCheckoutDto "CASH" None) (items orange_cart))
           ltac:(vm_compute; reflexivity) "u"%string []).
  reflexivity.
Defined.

(** Checkout writes at most the cart of the user checking out (deleting it):
    every other user's cart is left as it was, so the totals invariant and
    the one-line-per-fruit invariant of the stored carts are kept. *)
Theorem checkout_frame_carts (p : string + float) (d n : option string) (s : string -> bool)
    (w : World) (u : string) (data : CheckoutDto) :
  let w' := fst (checkout p d n s u data w) in
  (forall u', u' <> u -> carts w' u' = carts w u') /\
  (world_totals_invariant w -> world_totals_invariant w') /\
  (world_distinct_lines w -> world_distinct_lines w').
Proof.
  cbv zeta. unfold world_totals_invariant, world_distinct_lines.
  destruct (checkout_carts p d n s w u data) as [E | E]; rewrite E.
  - split; [reflexivity|]. split; auto.
  - unfold upd. split; [|split].
    + intros u' Hne. destruct (String.eqb_spec u u'); [congruence | reflexivity].
    + intros Hi u' c. destruct (String.eqb u u'); [discriminate | apply Hi].
    + intros Hi u' c. destruct (String.eqb u u'); [discriminate | apply Hi].
Qed.

Lemma checkout_frame_carts_witness :
  carts (fst (checkout (inr 100%float) None None (fun _ => false) "u"
                (mkCheckoutDto "CASH" None) shop_with_oranges)) "v"
    = carts shop_with_oranges "v" /\
  world_totals_invariant (fst (checkout (inr 100%float) None None (fun _ => false) "u"
                (mkCheckoutDto "CASH" None) shop_with_oranges)).
Proof.
  assert (H0 : world_totals_invariant shop) by (intros u c Hc; discriminate Hc).
  assert (H1 : world_totals_invariant shop_with_oranges)
    by (unfold shop_with_oranges, run_ops; cbn [fold_left];
        apply run_op_invariant, run_op_invariant, H0).
  split.
  - apply (proj1 (checkout_frame_carts (inr 100%float) None None (fun _ => false)
                    shop_with_oranges "u"%string (mkCheckoutDto "CASH" None))).
    discriminate.
  - apply (proj1 (proj2 (checkout_frame_carts (inr 100%float) None None (fun _ => false)
                    shop_with_oranges "u"%string (mkCheckoutDto "CASH" None)))).
    exact H1.
Defined.

Lemma cart_op_frame_witness :
  carts (run_op (OpAdd "u" (mkAddToCartDto apple_id 2)) shop_with_oranges) "v"
    = carts shop_with_oranges "v".
Proof.
  apply (proj2 (proj2 (proj2 (cart_op_frame (OpAdd "u" (mkAddToCartDto apple_id 2))
                                 shop_with_oranges)))).
  discriminate.
Defined.

(** The add-to-cart endpoint rejects a request without a fruitId (or with
    an empty one), without a quantity, or with a quantity [<= 0] with a 400
    answer and its message, before reading or writing anything. *)
Theorem addToCartController_validation (w : World) (u : string) (fid : option string)
    (q : option Z) :
  (fid = None \/ fid = Some ""%string ->
     addToCartController u fid q w = (w, Ok (mkResponse 400 false "fruitId is required" None))) /\
  (forall f, f <> ""%string -> q = None ->
     addToCartController u (Some f) q w
       = (w, Ok (mkResponse 400 false "quantity is required" None))) /\
  (forall f n, f <> ""%string -> q = Some n -> n <= 0 ->
     addToCartController u (Some f) q w
       = (w, Ok (mkResponse 400 false "Quantity must be greater than 0" None))).
Proof.
  split; [|split].
  - intros [-> | ->]; reflexivity.
  - intros f Hf ->. destruct f; [congruence | reflexivity].
  - intros f n Hf -> Hn. apply Z.leb_le in Hn. destruct f; [congruence|].
    cbn. rewrite Hn. reflexivity.
Qed.

Lemma addToCartController_validation_witness :
  addToCartController "u" (Some apple_id) (Some 0) shop
    = (shop, Ok (mkResponse 400 false "Quantity must be greater than 0" None)).
Proof.
  apply (proj2 (proj2 (addToCartController_validation shop "u"%string None (Some 0)))
           apple_id 0); [discriminate | reflexivity | lia].
Defined.

(** The add-to-cart endpoint answers an id that is not an ObjectId string
    with the CastError's message and, as that message names neither "not
    found" nor "out of stock" for an ordinary id, with 500; an ObjectId the
    catalog lacks with 404 "Fruit not found"; a fruit out of stock or short
    of the requested quantity with 400 and the service's message; all three
    write nothing.  A request the service accepts is answered with 201 and
    the stored cart. *)
Theorem addToCartController_outcomes (w : World) (u f : string) (q : Z) :
  f <> ""%string -> 0 < q ->
  (castObjectId f = None ->
     includes (castErrorMessage f) "not found" = false ->
     includes (castErrorMessage f) "out of stock" = false ->
     addToCartController u (Some f) (Some q) w
       = (w, Ok (mkResponse 500 false (castErrorMessage f) None))) /\
  (forall oid, castObjectId f = Some oid -> fruits w oid = None ->
     addToCartController u (Some f) (Some q) w
       = (w, Ok (mkResponse 404 false "Fruit not found" None))) /\
  (forall fruit, findFruit w f = Some fruit ->
     Fruit.inStock fruit = false \/ Fruit.stockQuantity fruit < q ->
     addToCartController u (Some f) (Some q) w
       = (w, Ok (mkResponse 400 false
                   "Fruit is out of stock or insufficient quantity available" None))) /\
  (forall w' c, addToCart u (mkAddToCartDto f q) w = (w', Ok c) ->
     addToCartController u (Some f) (Some q) w
       = (w', Ok (mkResponse 201 true "Item added to cart successfully" (Some c))) /\
     getCart u w' = (w', Ok c)).
Proof.
  intros Hf Hq.
  assert (Hc : addToCartController u (Some f) (Some q) w =
             catch (c <- addToCart u (mkAddToCartDto f q) ;;
                    ret (mkResponse 201 true "Item added to cart successfully" (Some c)))
               (fun errorMessage =>
                  let msg := message_or errorMessage "Failed to add item to cart" in
                  let code := if includes msg "not found" then 404
                              else if includes msg "out of stock" then 400 else 500 in
                  ret (mkResponse code false msg None)) w).
  { unfold addToCartController.
    destruct f; [congruence|]. destruct (Z.leb_spec q 0); [lia | reflexivity]. }
  split; [|split; [|split]].
  - intros Ho Hn Hs. rewrite Hc. unfold catch, addToCart, bind, get, throw.
    cbn [dto_fruitId]. cbv beta iota. rewrite Ho. cbv zeta.
    assert (Hm : message_or (castErrorMessage f) "Failed to add item to cart"
                 = castErrorMessage f) by reflexivity.
    rewrite Hm, Hn, Hs. reflexivity.
  - intros oid Ho Hn. rewrite Hc. unfold catch, addToCart, bind, get, throw.
    cbn [dto_fruitId]. cbv beta iota. rewrite Ho, Hn. reflexivity.
  - intros fruit Hn Hs. destruct (findFruit_some _ _ _ Hn) as [oid [Ho Hn']].
    rewrite Hc. unfold catch, addToCart, bind, get, throw.
    cbn [dto_fruitId dto_quantity]. cbv beta iota. rewrite Ho, Hn'.
    destruct Hs as [Hs | Hs]; [rewrite Hs | apply Z.ltb_lt in Hs; rewrite Hs, orb_true_r];
      reflexivity.
  - intros w' c Ha. rewrite Hc. unfold catch, bind. rewrite Ha. split; [reflexivity|].
    revert Ha. unfold_M. split_matches; intros H; try discriminate H;
      injection H as <- <-; unfold getCart, bind, get, ret, formatCartResponse; cbn;
      unfold upd; rewrite String.eqb_refl; reflexivity.
Qed.

Lemma addToCartController_outcomes_witness :
  addToCartController "u" (Some "pear"%string) (Some 1) shop
    = (shop, Ok (mkResponse 500 false (castErrorMessage "pear") None)) /\
  addToCartController "u" (Some kiwi_id) (Some 1) shop
    = (shop, Ok (mkResponse 404 false "Fruit not found" None)).
Proof.
  split.
  - apply (proj1 (addToCartController_outcomes shop "u"%string "pear"%string 1
                    ltac:(discriminate) ltac:(lia))); vm_compute; reflexivity.
  - apply (proj1 (proj2 (addToCartController_outcomes shop "u"%string kiwi_id 1
                           ltac:(discriminate) ltac:(lia))) kiwi_id);
      vm_compute; reflexivity.
Defined.

(** The update endpoint answers a request without a quantity with 400, an
    update of a fruit the user's cart has no line for (or of a user with no
    cart) with 404 "Item not found in cart", writing nothing in both cases;
    otherwise with 200 and the stored cart, the message telling a removal
    ([quantity <= 0]) from an update. *)
Theorem updateCartItemController_outcomes (w : World) (u f : string) :
  updateCartItemController u f None w
    = (w, Ok (mkResponse 400 false "Quantity is required" None)) /\
  (forall q, (carts w u = None \/ exists cart, carts w u = Some cart /\
                findIndex (fun item => String.eqb (fruitId item) f) (items cart) = None) ->
     updateCartItemController u f (Some q) w
       = (w, Ok (mkResponse 404 false "Item not found in cart" None))) /\
  (forall q cart i, carts w u = Some cart ->
     findIndex (fun item => String.eqb (fruitId item) f) (items cart) = Some i ->
     exists w' c,
       updateCartItemController u f (Some q) w
         = (w', Ok (mkResponse 200 true
                      (if q <=? 0 then "Item removed from cart"
                       else "Cart item updated successfully") (Some c))) /\
       getCart u w' = (w', Ok c)).
Proof.
  split; [reflexivity | split].
  - intros q Hc. unfold updateCartItemController, catch, updateCartItem, bind, get, ret.
    cbv beta iota.
    destruct Hc as [Hc | [cart [Hc Hi]]]; rewrite Hc; [reflexivity|]. rewrite Hi. reflexivity.
  - intros q cart i Hc Hi. unfold updateCartItemController, catch, bind.
    rewrite (updateCartItem_found w u f q cart i Hc Hi). cbv zeta.
    do 2 eexists. split; [reflexivity|].
    unfold getCart, bind, get, ret, formatCartResponse. cbn.
    unfold upd. rewrite String.eqb_refl. reflexivity.
Qed.

Lemma updateCartItemController_outcomes_witness :
  updateCartItemController "u" orange_id (Some 2) shop_with_apples
    = (shop_with_apples, Ok (mkResponse 404 false "Item not found in cart" None)).
Proof.
  apply (proj1 (proj2 (updateCartItemController_outcomes shop_with_apples
                         "u"%string orange_id)) 2).
  right. exists apple_cart. split; vm_compute; reflexivity.
Defined.

(** The remove endpoint answers the removal of a fruit the user's cart has
    no line for (or of a user with no cart) with 404 "Item not found in
    cart", writing nothing; otherwise with 200 and the stored cart, which
    has one line fewer. *)
Theorem removeFromCartController_outcomes (w : World) (u f : string) :
  ((carts w u = None \/ exists cart, carts w u = Some cart /\
      findIndex (fun item => String.eqb (fruitId item) f) (items cart) = None) ->
   removeFromCartController u f w
     = (w, Ok (mkResponse 404 false "Item not found in cart" None))) /\
  (forall cart i, carts w u = Some cart ->
     findIndex (fun item => String.eqb (fruitId item) f) (items cart) = Some i ->
     exists w' c,
       removeFromCartController u f w
         = (w', Ok (mkResponse 200 true "Item removed from cart successfully" (Some c))) /\
       getCart u w' = (w', Ok c) /\
       S (List.length (items c)) = List.length (items cart)).
Proof.
  split.
  - intros Hc. unfold removeFromCartController, catch, removeFromCart, bind, get, ret.
    cbv beta iota.
    destruct Hc as [Hc | [cart [Hc Hi]]]; rewrite Hc; [reflexivity|]. rewrite Hi. reflexivity.
  - intros cart i Hc Hi. unfold removeFromCartController, catch, removeFromCart, bind, get, put, ret.
    cbv beta iota. rewrite Hc, Hi.
    do 2 eexists. split; [reflexivity|]. split.
    + unfold getCart, bind, get, ret, formatCartResponse. cbn.
      unfold upd. rewrite String.eqb_refl. reflexivity.
    + destruct (findIndex_some _ _ _ Hi) as [x [Hx _]].
      exact (length_remove_at i _ x Hx).
Qed.

Lemma removeFromCartController_outcomes_witness :
  exists w' c,
    removeFromCartController "u" apple_id shop_with_apples
      = (w', Ok (mkResponse 200 true "Item removed from cart successfully" (Some c))) /\
    getCart "u" w' = (w', Ok c) /\
    S (List.length (items c)) = List.length (items apple_cart).
Proof.
  apply (proj2 (removeFromCartController_outcomes shop_with_apples "u"%string apple_id)
           apple_cart 0%nat); vm_compute; reflexivity.
Defined.

(** The checkout endpoint answers a request without a payment method (or
    with an empty one) with 400 "Payment method is required", a user with
    no lines with 400 "Cart is empty", and a non-empty cart with an unknown
    payment method with 400 "Invalid payment method", writing nothing in
    these cases; a checkout that succeeds is answered with 201 and the
    transaction. *)
Theorem checkoutController_outcomes (p : string + float) (d n : option string)
    (s : string -> bool) (w : World) (u : string) (pm : option string)
    (notes : option string) :
  (pm = None \/ pm = Some ""%string ->
     checkoutController p d n s u pm notes w
       = (w, Ok (mkResponse 400 false "Payment method is required" None))) /\
  (forall m, m <> ""%string -> pm = Some m ->
     (carts w u = None \/ exists cart, carts w u = Some cart /\ items cart = []) ->
     checkoutController p d n s u pm notes w
       = (w, Ok (mkResponse 400 false "Cart is empty" None))) /\
  (forall m cart, m <> ""%string -> pm = Some m ->
     carts w u = Some cart -> items cart <> [] ->
     ~ In (toUpperCase m) PaymentMethod_values ->
     checkoutController p d n s u pm notes w
       = (w, Ok (mkResponse 400 false "Invalid payment method" None))) /\
  (forall m w' tx, m <> ""%string -> pm = Some m ->
     checkout p d n s u (mkCheckoutDto m notes) w = (w', Ok tx) ->
     checkoutController p d n s u pm notes w
       = (w', Ok (mkResponse 201 true "Checkout successful" (Some tx)))).
Proof.
  split; [|split; [|split]].
  - intros [-> | ->]; reflexivity.
  - intros m Hm -> Hc. unfold checkoutController, catch, bind.
    destruct m as [|a m']; [congruence|]. cbv beta iota.
    rewrite (checkout_no_lines p d n s w u (mkCheckoutDto (String a m') notes) Hc).
    reflexivity.
  - intros m cart Hm -> Hc Hne Hin. unfold checkoutController, catch, bind.
    destruct (existsb (String.eqb (toUpperCase m)) PaymentMethod_values) eqn:Hv;
      [apply existsb_method in Hv; contradiction|].
    destruct m as [|a m']; [congruence|]. cbv beta iota.
    rewrite (checkout_bad_method p d n s w u (mkCheckoutDto (String a m') notes) cart Hc Hne Hv).
    reflexivity.
  - intros m w' tx Hm -> H. unfold checkoutController, catch, bind.
    destruct m as [|a m']; [congruence|]. cbv beta iota. rewrite H. reflexivity.
Qed.

Lemma checkoutController_outcomes_witness :
  checkoutController (inr 0%float) None None (fun _ => false) "u" (Some "bitcoin"%string) None
      shop_with_oranges
    = (shop_with_oranges, Ok (mkResponse 400 false "Invalid payment method" None)).
Proof.
  apply (proj1 (proj2 (proj2 (checkoutController_outcomes (inr 0%float) None None
                               (fun _ => false) shop_with_oranges "u"%string
                               (Some "bitcoin"%string) None))) "bitcoin"%string orange_cart).
  - discriminate.
  - reflexivity.
  - vm_compute. reflexivity.
  - discriminate.
  - cbn. intuition discriminate.
Defined.
